(** * Policy evaluation for prSigstoreSigned

    A shallow embedding of [signature/policy_eval_sigstore.go]: the key
    material loader, the two trust-root builders, the per-signature
    acceptance decision and the image admission loop, followed by the
    properties of those functions.

    Conventions of the embedding.
    - A Go [[]byte] that the code compares with [nil] is an [option bytes];
      [None] is the nil slice and [Some []] the empty, non-nil one.
    - A Go [error] is an [option error]: [None] is the nil error.  A Go call
      returning [(T, error)] whose caller only looks at [T] after checking
      the error is a [result T].
    - Everything the file calls but does not define (file reads, PEM
      parsing, Rekor and Fulcio verification, the payload verifier, the
      image accessors, the annotation keys) is a member of the
      [Collaborators] class, so every theorem holds whatever those do.
    - [logrus.Errorf] appends to a log that the functions return next to
      their Go results. *)

From Stdlib.Strings Require Import Byte.
From stdpp Require Import gmap strings list pretty.

Set Default Proof Using "Type".

(** ** Go values: bytes, strings, errors *)

Definition bytes := list byte.

Global Instance byte_eq_decision : EqDecision byte := Byte.byte_eq_dec.

(** [[]byte(s)] for a Go string [s]. *)
Definition bytes_of_string (s : string) : bytes := String.list_byte_of_string s.

(** The double-quote character, for messages that quote a field name. *)
Definition dq : string := String (Ascii.ascii_of_nat 34) EmptyString.

(** The error values the file builds: [errors.New] and [fmt.Errorf] without
    [%w] give an [errorString]; [fmt.Errorf("...: %w", err)] wraps; and
    [PolicyRequirementError] is the package's string-typed error. *)
Inductive error : Type :=
| errorString (msg : string)
| wrapError (prefix : string) (cause : error)
| PolicyRequirementError (msg : string).

(** The [Error()] method. *)
Fixpoint Error (e : error) : string :=
  match e with
  | errorString msg => msg
  | wrapError prefix cause => prefix +:+ Error cause
  | PolicyRequirementError msg => msg
  end.

Global Instance error_eq_dec : EqDecision error.
Proof. solve_decision. Defined.

(** A Go [(T, error)] return. *)
Inductive result (A : Type) : Type :=
| Ok (a : A)
| Err (e : error).
Arguments Ok {A} a.
Arguments Err {A} e.

Global Instance result_ret : MRet result := fun A a => Ok a.
Global Instance result_bind : MBind result := fun A B f m =>
  match m with
  | Ok a => f a
  | Err e => Err e
  end.

(** [fmt.Errorf(prefix + "%w", err)] applied to a failing call. *)
Definition wrapping {A} (prefix : string) (m : result A) : result A :=
  match m with
  | Ok a => Ok a
  | Err e => Err (wrapError prefix e)
  end.

Definition is_Err {A} (m : result A) : Prop := exists e, m = Err e.

(** One [logrus.Errorf(format, err)] call. *)
Inductive LogEntry : Type :=
| Errorf (format : string) (arg : error).

(** ** Types and functions of other packages *)

Class Types := {
  (** [crypto.PublicKey] *)
  PublicKey : Type;
  (** [*ecdsa.PublicKey] *)
  ECDSAPublicKey : Type;
  (** [*x509.CertPool] *)
  CertPool : Type;
  (** [context.Context] *)
  GoContext : Type;
  (** [private.UnparsedImage] *)
  UnparsedImage : Type;
  (** [PolicyReferenceMatch], the type of [pr.SignedIdentity] *)
  PolicyReferenceMatch : Type;
  (** [*internal.UntrustedSigstorePayload], non-nil *)
  UntrustedSigstorePayload : Type;
  (** [time.Time] *)
  RekorTime : Type;
  (** a signature that is not a [signature.Sigstore] *)
  OtherSignature : Type;
}.

(** [signatureAcceptanceResult] and its three constants. *)
Inductive signatureAcceptanceResult : Type :=
| sarAccepted
| sarRejected
| sarUnknown.

Section Model.
Context `{Types}.

(** [signatureKeyAcceptanceResult{result, key}] *)
Record signatureKeyAcceptanceResult : Type := {
  sar_result : signatureAcceptanceResult;
  sar_key : option PublicKey;
}.

(** [prSigstoreSignedFulcio] *)
Record prSigstoreSignedFulcio : Type := {
  CAPath : string;
  CAData : option bytes;
  OIDCIssuer : string;
  SubjectEmail : string;
}.

(** [fulcioTrustRoot] *)
Record fulcioTrustRoot : Type := {
  caCertificates : CertPool;
  oidcIssuer : string;
  subjectEmail : string;
}.

(** [prSigstoreSigned]; [Fulcio] is the interface value, nil when absent. *)
Record prSigstoreSigned : Type := {
  KeyPath : string;
  KeyPaths : list string;
  KeyData : option bytes;
  KeyDatas : list bytes;
  Fulcio : option prSigstoreSignedFulcio;
  RekorPublicKeyPath : string;
  RekorPublicKeyData : option bytes;
  SignedIdentity : PolicyReferenceMatch;
}.

(** [sigstoreSignedTrustRoot] *)
Record sigstoreSignedTrustRoot : Type := {
  publicKeys : list PublicKey;
  fulcio : option fulcioTrustRoot;
  rekorPublicKey : option ECDSAPublicKey;
}.

(** [signature.Sigstore]: MIME type, payload and annotations, all untrusted. *)
Record Sigstore : Type := {
  UntrustedMIMEType : string;
  UntrustedPayload : bytes;
  UntrustedAnnotations : gmap string string;
}.

(** [signature.Signature]: the [s.(signature.Sigstore)] assertion succeeds
    on [SigstoreSig] only. *)
Inductive Signature : Type :=
| SigstoreSig (s : Sigstore)
| OtherSig (s : OtherSignature).

(** [internal.SigstorePayloadAcceptanceRules] *)
Record SigstorePayloadAcceptanceRules : Type := {
  ValidateSignedDockerReference : string -> option error;
  ValidateSignedDockerManifestDigest : string -> option error;
}.

Class Collaborators := {
  (** [os.ReadFile] *)
  os_ReadFile : string -> result (option bytes);
  (** [cryptoutils.UnmarshalPEMToPublicKey] *)
  UnmarshalPEMToPublicKey : bytes -> result PublicKey;
  (** [cryptoutils.MarshalPublicKeyToPEM] *)
  MarshalPublicKeyToPEM : PublicKey -> result bytes;
  (** the type assertion of [pk] to an ECDSA public key *)
  asECDSA : PublicKey -> option ECDSAPublicKey;
  (** [x509.NewCertPool()] *)
  NewCertPool : CertPool;
  (** [certs.AppendCertsFromPEM(pem)]: the pool afterwards and [ok] *)
  AppendCertsFromPEM : CertPool -> bytes -> CertPool * bool;
  (** [fulcioTrustRoot.validate] *)
  fulcio_validate : fulcioTrustRoot -> option error;
  (** [internal.VerifyRekorSET] *)
  VerifyRekorSET : ECDSAPublicKey -> bytes -> bytes -> string -> bytes -> result RekorTime;
  (** [verifyRekorFulcio] *)
  verifyRekorFulcio : ECDSAPublicKey -> fulcioTrustRoot -> bytes -> bytes ->
                      option bytes -> string -> bytes -> result PublicKey;
  (** [internal.VerifySigstorePayload], with its three Go results *)
  VerifySigstorePayload : list PublicKey -> bytes -> string ->
                          SigstorePayloadAcceptanceRules ->
                          option UntrustedSigstorePayload * option PublicKey * option error;
  (** [PolicyReferenceMatch.matchesDockerReference] *)
  matchesDockerReference : PolicyReferenceMatch -> UnparsedImage -> string -> bool;
  (** [image.Manifest(ctx)], without the MIME type the caller drops *)
  image_Manifest : UnparsedImage -> GoContext -> result bytes;
  (** [manifest.MatchesDigest] *)
  MatchesDigest : bytes -> string -> result bool;
  (** [image.UntrustedSignatures(ctx)] *)
  UntrustedSignatures : UnparsedImage -> GoContext -> result (list Signature);
  (** the annotation keys and the MIME type of [internal/signature] *)
  SigstoreSignatureAnnotationKey : string;
  SigstoreSETAnnotationKey : string;
  SigstoreCertificateAnnotationKey : string;
  SigstoreIntermediateCertificateChainAnnotationKey : string;
  SigstoreSignatureMIMEType : string;
  (** the [%q] verb of [fmt] on a string *)
  fmt_q : string -> string;
  (** [string(res.result)] *)
  sar_string : signatureAcceptanceResult -> string;
  (** [multierr.Format] *)
  multierr_Format : string -> string -> string -> list (option error) -> error;
}.

Context `{Collaborators}.

(** ** Key material loader *)

Definition loadBytesFromDataOrPath (prefix : string) (data : option bytes) (path : string)
  : result (option bytes) :=
  match data, bool_decide (path <> EmptyString) with
  | Some _, true =>
      Err (errorString ("Internal inconsistency: both " +:+ dq +:+ prefix +:+ "Path" +:+ dq
                        +:+ " and " +:+ dq +:+ prefix +:+ "Data" +:+ dq +:+ " specified"))
  | _, true =>
      d ← os_ReadFile path;
      Ok d
  | Some d, false => Ok (Some d)
  | None, false => Ok None
  end.

(** ** Trust root of a Fulcio configuration *)

Definition fulcio_prepareTrustRoot (f : prSigstoreSignedFulcio) : result fulcioTrustRoot :=
  caCertBytes ← loadBytesFromDataOrPath "fulcioCA" (CAData f) (CAPath f);
  match caCertBytes with
  | None =>
      Err (errorString ("Internal inconsistency: Fulcio specified with neither " +:+ dq
                        +:+ "caPath" +:+ dq +:+ " nor " +:+ dq +:+ "caData" +:+ dq))
  | Some caCertBytes =>
      let '(certs, ok) := AppendCertsFromPEM NewCertPool caCertBytes in
      if negb ok then Err (errorString "error loading Fulcio CA certificates")
      else
        let fulcio := {| caCertificates := certs;
                         oidcIssuer := OIDCIssuer f;
                         subjectEmail := SubjectEmail f |} in
        match fulcio_validate fulcio with
        | Some err => Err err
        | None => Ok fulcio
        end
  end.

(** ** Trust root of a policy requirement *)

(** The local [keyPaths] of [prepareTrustRoot]: the singular path when it
    is set, the plural list otherwise. *)
Definition keyPaths (pr : prSigstoreSigned) : list string :=
  if bool_decide (KeyPath pr <> EmptyString) then [KeyPath pr] else KeyPaths pr.

(** The local [keyDatas]: the singular data when it is neither nil nor
    empty, the plural list otherwise. *)
Definition keyDatas (pr : prSigstoreSigned) : list bytes :=
  match KeyData pr with
  | Some d => if bool_decide (0 < length d) then [d] else KeyDatas pr
  | None => KeyDatas pr
  end.

(** [for _, keyPath := range keyPaths { ... }], appending to [pks]. *)
Fixpoint loadKeyPaths (paths : list string) (pks : list PublicKey) : result (list PublicKey) :=
  match paths with
  | [] => Ok pks
  | keyPath :: rest =>
      publicKeyPEM ← os_ReadFile keyPath;
      match publicKeyPEM with
      | Some publicKeyPEM =>
          pk ← wrapping "parsing public key: " (UnmarshalPEMToPublicKey publicKeyPEM);
          loadKeyPaths rest (pks ++ [pk])
      | None => loadKeyPaths rest pks
      end
  end.

(** [for _, keyData := range keyDatas { ... }], appending to [pks]. *)
Fixpoint loadKeyDatas (datas : list bytes) (pks : list PublicKey) : result (list PublicKey) :=
  match datas with
  | [] => Ok pks
  | keyData :: rest =>
      pk ← wrapping "parsing public key: " (UnmarshalPEMToPublicKey keyData);
      loadKeyDatas rest (pks ++ [pk])
  end.

Definition prepareTrustRoot (pr : prSigstoreSigned) : result sigstoreSignedTrustRoot :=
  if bool_decide (0 < length (keyDatas pr)) && bool_decide (0 < length (keyPaths pr))
  then Err (errorString "Too many key sources are specified")
  else
    pks ← loadKeyPaths (keyPaths pr) [];
    pks ← loadKeyDatas (keyDatas pr) pks;
    f ← match Fulcio pr with
        | Some fulcioCfg => f ← fulcio_prepareTrustRoot fulcioCfg; Ok (Some f)
        | None => Ok None
        end;
    rekorPublicKeyPEM ← loadBytesFromDataOrPath "rekorPublicKey"
                          (RekorPublicKeyData pr) (RekorPublicKeyPath pr);
    rekor ← match rekorPublicKeyPEM with
            | Some rekorPublicKeyPEM =>
                pk ← wrapping "parsing Rekor public key: "
                       (UnmarshalPEMToPublicKey rekorPublicKeyPEM);
                match asECDSA pk with
                | Some pkECDSA => Ok (Some pkECDSA)
                | None => Err (errorString "Rekor public key is not using ECDSA")
                end
            | None => Ok None
            end;
    Ok {| publicKeys := pks; fulcio := f; rekorPublicKey := rekor |}.

(** ** Acceptance of one signature *)

Definition rejectedRes : signatureKeyAcceptanceResult :=
  {| sar_result := sarRejected; sar_key := None |}.

Definition isSignatureAuthorAccepted (pr : prSigstoreSigned) (ctx : GoContext)
    (image : UnparsedImage) (sig : bytes)
  : signatureAcceptanceResult * option Signature * option error :=
  (sarRejected, None,
   Some (errorString "isSignatureAuthorAccepted is not implemented for sigstore")).

(** [fmt.Errorf("missing %s annotation", key)] *)
Definition missingAnnotation (key : string) : error :=
  errorString ("missing " +:+ key +:+ " annotation").

(** [for i := range trustRoot.publicKeys { ... }] of the direct-key branch:
    a key whose PEM encoding or Rekor SET check fails is logged and
    skipped, the others are appended to [publicKeys]. *)
Fixpoint rekorFilter (rekor : ECDSAPublicKey) (untrustedSET : bytes)
    (untrustedBase64Signature : string) (untrustedPayload : bytes)
    (keys : list PublicKey) (acc : list PublicKey) (log : list LogEntry)
  : list PublicKey * list LogEntry :=
  match keys with
  | [] => (acc, log)
  | key :: rest =>
      match MarshalPublicKeyToPEM key with
      | Err err =>
          rekorFilter rekor untrustedSET untrustedBase64Signature untrustedPayload rest
            acc (log ++ [Errorf "re-marshaling public key to PEM: %q" err])
      | Ok recreatedPublicKeyPEM =>
          match VerifyRekorSET rekor untrustedSET recreatedPublicKeyPEM
                  untrustedBase64Signature untrustedPayload with
          | Err err =>
              rekorFilter rekor untrustedSET untrustedBase64Signature untrustedPayload rest
                acc (log ++ [Errorf "%q" err])
          | Ok _ =>
              rekorFilter rekor untrustedSET untrustedBase64Signature untrustedPayload rest
                (acc ++ [key]) log
          end
      end
  end.

(** The two closures handed to [VerifySigstorePayload]. *)
Definition acceptanceRules (pr : prSigstoreSigned) (ctx : GoContext) (image : UnparsedImage)
  : SigstorePayloadAcceptanceRules :=
  {| ValidateSignedDockerReference := fun ref =>
       if negb (matchesDockerReference (SignedIdentity pr) image ref)
       then Some (PolicyRequirementError
                    ("Signature for identity " +:+ fmt_q ref +:+ " is not accepted"))
       else None;
     ValidateSignedDockerManifestDigest := fun digest =>
       match image_Manifest image ctx with
       | Err err => Some err
       | Ok m =>
           match MatchesDigest m digest with
           | Err err => Some err
           | Ok digestMatches =>
               if negb digestMatches
               then Some (PolicyRequirementError
                            ("Signature for digest " +:+ digest +:+ " does not match"))
               else None
           end
       end |}.

(** What [isSignatureAccepted] returns: the Go results and the log lines. *)
Definition outcome : Type := signatureKeyAcceptanceResult * option error * list LogEntry.

Definition reject (err : error) (log : list LogEntry) : outcome :=
  (rejectedRes, Some err, log).

(** The end of [isSignatureAccepted], from [if len(publicKeys) == 0] on. *)
Definition verifyPayload (pr : prSigstoreSigned) (ctx : GoContext) (image : UnparsedImage)
    (publicKeys : list PublicKey) (untrustedPayload : bytes)
    (untrustedBase64Signature : string) (log : list LogEntry) : outcome :=
  if bool_decide (length publicKeys = 0)
  then reject (errorString
         "Internal inconsistency: publicKey not set before verifying sigstore payload") log
  else
    let '(signature, signingKey, err) :=
      VerifySigstorePayload publicKeys untrustedPayload untrustedBase64Signature
        (acceptanceRules pr ctx image) in
    match err with
    | Some err => reject err log
    | None =>
        match signature with
        | None => reject (errorString
            "internal error: VerifySigstorePayload succeeded but returned no data") log
        | Some _ => ({| sar_result := sarAccepted; sar_key := signingKey |}, None, log)
        end
    end.

(** [isSignatureAccepted] after the trust root has been prepared. *)
Definition isSignatureAccepted_with (trustRoot : sigstoreSignedTrustRoot)
    (pr : prSigstoreSigned) (ctx : GoContext) (image : UnparsedImage) (sig : Sigstore)
  : outcome :=
  let untrustedAnnotations := UntrustedAnnotations sig in
  match untrustedAnnotations !! SigstoreSignatureAnnotationKey with
  | None => reject (missingAnnotation SigstoreSignatureAnnotationKey) []
  | Some untrustedBase64Signature =>
      let untrustedPayload := UntrustedPayload sig in
      match bool_decide (0 < length (publicKeys trustRoot)), fulcio trustRoot with
      | true, Some _ =>
          reject (errorString
            "Internal inconsistency: Both a public key and Fulcio CA specified") []
      | false, None =>
          reject (errorString
            "Internal inconsistency: Neither a public key nor a Fulcio CA specified") []
      | true, None =>
          match rekorPublicKey trustRoot with
          | Some rekor =>
              match untrustedAnnotations !! SigstoreSETAnnotationKey with
              | None => reject (missingAnnotation SigstoreSETAnnotationKey) []
              | Some untrustedSET =>
                  let '(publicKeys, log) :=
                    rekorFilter rekor (bytes_of_string untrustedSET)
                      untrustedBase64Signature untrustedPayload
                      (publicKeys trustRoot) [] [] in
                  if bool_decide (length publicKeys = 0)
                  then reject (errorString "No public key verified against the RekorSET") log
                  else verifyPayload pr ctx image publicKeys untrustedPayload
                         untrustedBase64Signature log
              end
          | None =>
              verifyPayload pr ctx image (publicKeys trustRoot) untrustedPayload
                untrustedBase64Signature []
          end
      | false, Some fulcioRoot =>
          match rekorPublicKey trustRoot with
          | None =>
              reject (errorString
                "Internal inconsistency: Fulcio CA specified without a Rekor public key") []
          | Some rekor =>
              match untrustedAnnotations !! SigstoreSETAnnotationKey with
              | None => reject (missingAnnotation SigstoreSETAnnotationKey) []
              | Some untrustedSET =>
                  match untrustedAnnotations !! SigstoreCertificateAnnotationKey with
                  | None => reject (missingAnnotation SigstoreCertificateAnnotationKey) []
                  | Some untrustedCert =>
                      let untrustedIntermediateChainBytes :=
                        bytes_of_string <$>
                          untrustedAnnotations
                            !! SigstoreIntermediateCertificateChainAnnotationKey in
                      match verifyRekorFulcio rekor fulcioRoot
                              (bytes_of_string untrustedSET) (bytes_of_string untrustedCert)
                              untrustedIntermediateChainBytes
                              untrustedBase64Signature untrustedPayload with
                      | Err err => reject err []
                      | Ok pk =>
                          verifyPayload pr ctx image [pk] untrustedPayload
                            untrustedBase64Signature []
                      end
                  end
              end
          end
      end
  end.

Definition isSignatureAccepted (pr : prSigstoreSigned) (ctx : GoContext)
    (image : UnparsedImage) (sig : Sigstore) : outcome :=
  match prepareTrustRoot pr with
  | Err err => reject err []
  | Ok trustRoot => isSignatureAccepted_with trustRoot pr ctx image sig
  end.

(** ** Admission of an image *)

(** The [switch len(rejections)] that builds [summary]. *)
Definition summary (rejections : list (option error))
    (foundNonSigstoreSignatures foundSigstoreNonAttachments : nat) : option error :=
  match rejections with
  | [] =>
      if bool_decide (foundNonSigstoreSignatures = 0)
         && bool_decide (foundSigstoreNonAttachments = 0)
      then Some (PolicyRequirementError "A signature was required, but no signature exists")
      else Some (PolicyRequirementError
                   ("A signature was required, but no signature exists ("
                    +:+ pretty foundNonSigstoreSignatures +:+ " non-sigstore signatures, "
                    +:+ pretty foundSigstoreNonAttachments
                    +:+ " sigstore non-signature attachments)"))
  | [reason] => reason
  | _ =>
      Some (PolicyRequirementError
              (Error (multierr_Format "None of the signatures were accepted, reasons: "
                        "; " EmptyString rejections)))
  end.

(** The [reason] the loop records for a signature that was not accepted. *)
Definition unexpectedResult (r : signatureAcceptanceResult) : error :=
  errorString ("Internal error: Unexpected signature verification result "
               +:+ fmt_q (sar_string r)).

(** [for _, s := range sigs { ... }] followed by the summary; the loop
    variables are the accumulators. *)
Fixpoint admitLoop (pr : prSigstoreSigned) (ctx : GoContext) (image : UnparsedImage)
    (sigs : list Signature) (rejections : list (option error))
    (foundNonSigstoreSignatures foundSigstoreNonAttachments : nat) (log : list LogEntry)
  : bool * option error * list LogEntry :=
  match sigs with
  | [] =>
      (false, summary rejections foundNonSigstoreSignatures foundSigstoreNonAttachments, log)
  | OtherSig _ :: rest =>
      admitLoop pr ctx image rest rejections
        (foundNonSigstoreSignatures + 1) foundSigstoreNonAttachments log
  | SigstoreSig sigstoreSig :: rest =>
      if bool_decide (UntrustedMIMEType sigstoreSig <> SigstoreSignatureMIMEType)
      then admitLoop pr ctx image rest rejections
             foundNonSigstoreSignatures (foundSigstoreNonAttachments + 1) log
      else
        let '(res, err, l) := isSignatureAccepted pr ctx image sigstoreSig in
        match sar_result res with
        | sarAccepted => (true, None, log ++ l)
        | sarRejected =>
            admitLoop pr ctx image rest (rejections ++ [err])
              foundNonSigstoreSignatures foundSigstoreNonAttachments (log ++ l)
        | sarUnknown =>
            admitLoop pr ctx image rest
              (rejections ++ [Some (unexpectedResult (sar_result res))])
              foundNonSigstoreSignatures foundSigstoreNonAttachments (log ++ l)
        end
  end.

Definition isRunningImageAllowed (pr : prSigstoreSigned) (ctx : GoContext)
    (image : UnparsedImage) : bool * option error * list LogEntry :=
  match UntrustedSignatures image ctx with
  | Err err => (false, Some err, [])
  | Ok sigs => admitLoop pr ctx image sigs [] 0 0 []
  end.

(** ** Vocabulary of the properties *)

(** The signatures the loop hands to [isSignatureAccepted]: those of the
    sigstore kind whose MIME type is the signature MIME type. *)
Fixpoint applicable (sigs : list Signature) : list Sigstore :=
  match sigs with
  | [] => []
  | OtherSig _ :: rest => applicable rest
  | SigstoreSig s :: rest =>
      if bool_decide (UntrustedMIMEType s <> SigstoreSignatureMIMEType)
      then applicable rest
      else s :: applicable rest
  end.

Definition isOtherSig (s : Signature) : bool :=
  match s with OtherSig _ => true | SigstoreSig _ => false end.

Definition isNonAttachment (s : Signature) : bool :=
  match s with
  | OtherSig _ => false
  | SigstoreSig s => bool_decide (UntrustedMIMEType s <> SigstoreSignatureMIMEType)
  end.

Definition countNonSigstore (sigs : list Signature) : nat :=
  length (filter (fun s => isOtherSig s = true) sigs).

Definition countNonAttachments (sigs : list Signature) : nat :=
  length (filter (fun s => isNonAttachment s = true) sigs).

(** The acceptance result of one applicable signature. *)
Definition verdict (pr : prSigstoreSigned) (ctx : GoContext) (image : UnparsedImage)
    (s : Sigstore) : signatureAcceptanceResult :=
  sar_result (isSignatureAccepted pr ctx image s).1.1.

Definition accepted (pr : prSigstoreSigned) (ctx : GoContext) (image : UnparsedImage)
    (s : Sigstore) : bool :=
  match verdict pr ctx image s with sarAccepted => true | _ => false end.

(** The rejection the loop records for an applicable signature that is not
    accepted. *)
Definition reasonOf (pr : prSigstoreSigned) (ctx : GoContext) (image : UnparsedImage)
    (s : Sigstore) : option error :=
  match verdict pr ctx image s with
  | sarRejected => (isSignatureAccepted pr ctx image s).1.2
  | r => Some (unexpectedResult r)
  end.

(** The log lines one applicable signature produces. *)
Definition logOf (pr : prSigstoreSigned) (ctx : GoContext) (image : UnparsedImage)
    (s : Sigstore) : list LogEntry :=
  (isSignatureAccepted pr ctx image s).2.

(** Whether a configured key passes the per-key Rekor check. *)
Definition rekorKeyOK (rekor : ECDSAPublicKey) (untrustedSET : bytes)
    (untrustedBase64Signature : string) (untrustedPayload : bytes) (key : PublicKey) : bool :=
  match MarshalPublicKeyToPEM key with
  | Err _ => false
  | Ok pem =>
      match VerifyRekorSET rekor untrustedSET pem untrustedBase64Signature untrustedPayload with
      | Err _ => false
      | Ok _ => true
      end
  end.

(** The log line of a key that does not pass it. *)
Definition rekorKeyLog (rekor : ECDSAPublicKey) (untrustedSET : bytes)
    (untrustedBase64Signature : string) (untrustedPayload : bytes) (key : PublicKey)
  : list LogEntry :=
  match MarshalPublicKeyToPEM key with
  | Err err => [Errorf "re-marshaling public key to PEM: %q" err]
  | Ok pem =>
      match VerifyRekorSET rekor untrustedSET pem untrustedBase64Signature untrustedPayload with
      | Err err => [Errorf "%q" err]
      | Ok _ => []
      end
  end.

(** The two shapes of a consistent trust root, and the inconsistent ones. *)
Definition directKeys (tr : sigstoreSignedTrustRoot) : Prop :=
  publicKeys tr <> [] /\ fulcio tr = None.

Definition certificateAuthority (tr : sigstoreSignedTrustRoot) : Prop :=
  publicKeys tr = [] /\ fulcio tr <> None /\ rekorPublicKey tr <> None.

Definition bothMechanisms (tr : sigstoreSignedTrustRoot) : Prop :=
  publicKeys tr <> [] /\ fulcio tr <> None.

Definition noMechanism (tr : sigstoreSignedTrustRoot) : Prop :=
  publicKeys tr = [] /\ fulcio tr = None.

Definition fulcioWithoutRekor (tr : sigstoreSignedTrustRoot) : Prop :=
  publicKeys tr = [] /\ fulcio tr <> None /\ rekorPublicKey tr = None.

Definition violatesInvariant (tr : sigstoreSignedTrustRoot) : Prop :=
  bothMechanisms tr \/ noMechanism tr \/ fulcioWithoutRekor tr.

(** The annotations the router requires under a trust root: the signature
    always; the Rekor SET in either branch when a Rekor key is configured;
    the certificate in the Fulcio branch. *)
Definition mandatory (tr : sigstoreSignedTrustRoot) (key : string) : Prop :=
  key = SigstoreSignatureAnnotationKey
  \/ (key = SigstoreSETAnnotationKey
      /\ rekorPublicKey tr <> None /\ (directKeys tr \/ certificateAuthority tr))
  \/ (key = SigstoreCertificateAnnotationKey /\ certificateAuthority tr).

(** An error that reports a broken internal invariant. *)
Definition internalInconsistency (e : error) : bool :=
  String.prefix "Internal inconsistency: " (Error e).

(** Modelled from the spec: [multierr.Format] of [internal/multierr] is not
    part of this file.  Section 4.6 says of several rejections: join all
    reasons into one combined message, each reason separated and terminated
    consistently, prefixed with a summary header.  So for two or more
    errors the message is the header, the reasons with the separator
    between them, and the terminator. *)
Definition multierr_Format_joins : Prop :=
  forall (first middle last : string) (errs : list error),
    2 <= length errs ->
    Error (multierr_Format first middle last (Some <$> errs))
    = first +:+ String.concat middle (Error <$> errs) +:+ last.

(** ** Vocabulary of the further properties *)

(** What one entry of [keyPaths] contributes to the key list: the key
    parsed from the file, or nothing when the read returns a nil slice. *)
Definition pathYields (keyPath : string) (key : option PublicKey) : Prop :=
  match key with
  | Some pk => exists pem, os_ReadFile keyPath = Ok (Some pem)
                           /\ UnmarshalPEMToPublicKey pem = Ok pk
  | None => os_ReadFile keyPath = Ok None
  end.

(** A policy requirement with other plural lists or another singular data. *)
Definition withKeyPaths (pr : prSigstoreSigned) (paths : list string) : prSigstoreSigned :=
  {| KeyPath := KeyPath pr; KeyPaths := paths; KeyData := KeyData pr;
     KeyDatas := KeyDatas pr; Fulcio := Fulcio pr;
     RekorPublicKeyPath := RekorPublicKeyPath pr;
     RekorPublicKeyData := RekorPublicKeyData pr;
     SignedIdentity := SignedIdentity pr |}.

Definition withKeyDatas (pr : prSigstoreSigned) (datas : list bytes) : prSigstoreSigned :=
  {| KeyPath := KeyPath pr; KeyPaths := KeyPaths pr; KeyData := KeyData pr;
     KeyDatas := datas; Fulcio := Fulcio pr;
     RekorPublicKeyPath := RekorPublicKeyPath pr;
     RekorPublicKeyData := RekorPublicKeyData pr;
     SignedIdentity := SignedIdentity pr |}.

Definition withKeyData (pr : prSigstoreSigned) (data : option bytes) : prSigstoreSigned :=
  {| KeyPath := KeyPath pr; KeyPaths := KeyPaths pr; KeyData := data;
     KeyDatas := KeyDatas pr; Fulcio := Fulcio pr;
     RekorPublicKeyPath := RekorPublicKeyPath pr;
     RekorPublicKeyData := RekorPublicKeyData pr;
     SignedIdentity := SignedIdentity pr |}.

(** The keys [isSignatureAccepted] hands to the payload verifier under a
    trust root: all configured keys without a Rekor key; those passing the
    per-key Rekor check with one; the key of the certificate that
    [verifyRekorFulcio] accepted in the Fulcio branch. *)
Definition candidateKeys (tr : sigstoreSignedTrustRoot) (sig : Sigstore) (b64 : string)
    (keys : list PublicKey) : Prop :=
  (directKeys tr /\ rekorPublicKey tr = None /\ keys = publicKeys tr)
  \/ (directKeys tr
      /\ exists rekor untrustedSET,
           rekorPublicKey tr = Some rekor
           /\ UntrustedAnnotations sig !! SigstoreSETAnnotationKey = Some untrustedSET
           /\ keys = filter (fun k => rekorKeyOK rekor (bytes_of_string untrustedSET) b64
                                        (UntrustedPayload sig) k = true) (publicKeys tr))
  \/ (publicKeys tr = []
      /\ exists rekor fulcioRoot untrustedSET untrustedCert pk,
           rekorPublicKey tr = Some rekor
           /\ fulcio tr = Some fulcioRoot
           /\ UntrustedAnnotations sig !! SigstoreSETAnnotationKey = Some untrustedSET
           /\ UntrustedAnnotations sig !! SigstoreCertificateAnnotationKey = Some untrustedCert
           /\ verifyRekorFulcio rekor fulcioRoot
                (bytes_of_string untrustedSET) (bytes_of_string untrustedCert)
                (bytes_of_string <$> UntrustedAnnotations sig
                                       !! SigstoreIntermediateCertificateChainAnnotationKey)
                b64 (UntrustedPayload sig) = Ok pk
           /\ keys = [pk]).

(** The admit/refuse decision of the loop over a list of signatures. *)
Definition admits (pr : prSigstoreSigned) (ctx : GoContext) (image : UnparsedImage)
    (sigs : list Signature) : bool :=
  (admitLoop pr ctx image sigs [] 0 0 []).1.1.

(** A signature that the loop evaluates and accepts. *)
Definition acceptedSignature (pr : prSigstoreSigned) (ctx : GoContext) (image : UnparsedImage)
    (s : Signature) : Prop :=
  exists sigstoreSig,
    s = SigstoreSig sigstoreSig
    /\ UntrustedMIMEType sigstoreSig = SigstoreSignatureMIMEType
    /\ verdict pr ctx image sigstoreSig = sarAccepted.

End Model.

(** ** A concrete instance

    A small world in which keys are named by strings: a PEM block is the
    name of its key, a signature annotation names the key that signed, and
    a Rekor SET names the key (or certificate) it logs.  It serves to run
    the functions above on concrete policies and images. *)
Module Fixture.

#[export] Instance types : Types := {|
  PublicKey := string;
  ECDSAPublicKey := string;
  CertPool := list bytes;
  GoContext := unit;
  UnparsedImage := nat;
  PolicyReferenceMatch := unit;
  UntrustedSigstorePayload := string;
  RekorTime := unit;
  OtherSignature := bytes;
|}.

Definition sigKey : string := "dev.cosignproject.cosign/signature".
Definition setKey : string := "dev.sigstore.cosign/bundle".
Definition certKey : string := "dev.sigstore.cosign/certificate".
Definition chainKey : string := "dev.sigstore.cosign/chain".
Definition mimeType : string := "application/vnd.dev.cosign.simplesigning.v1+json".

Definition mkSig (mime : string) (annotations : list (string * string)) : Sigstore :=
  {| UntrustedMIMEType := mime;
     UntrustedPayload := bytes_of_string "payload";
     UntrustedAnnotations := list_to_map annotations |}.

(** A signature by key [alice] without a Rekor SET. *)
Definition sigAlice : Sigstore := mkSig mimeType [(sigKey, "alice")].
(** A signature by key [mallory], logged in Rekor for [mallory]. *)
Definition sigMallory : Sigstore := mkSig mimeType [(sigKey, "mallory"); (setKey, "mallory")].
(** A signature by [alice] with a SET for [alice], and no certificate. *)
Definition sigAliceLogged : Sigstore := mkSig mimeType [(sigKey, "alice"); (setKey, "alice")].
(** An attachment with no annotation at all. *)
Definition sigBare : Sigstore := mkSig mimeType [].
(** A sigstore attachment that is not a signature. *)
Definition sbom : Sigstore := mkSig "text/spdx" [(sigKey, "alice")].

(** A signature of another kind (simple signing). *)
Definition simpleSigning : Signature := OtherSig [].

(** The signatures attached to the images [0], [1], ... *)
Definition signaturesOf (image : nat) : list Signature :=
  match image with
  | 0 => []
  | 1 => [SigstoreSig sigMallory; SigstoreSig sigBare]
  | 2 => [simpleSigning; SigstoreSig sbom; SigstoreSig sigMallory;
          SigstoreSig sigAlice; SigstoreSig sigBare]
  | 3 => [SigstoreSig sigMallory]
  | 4 => [simpleSigning; SigstoreSig sbom]
  | _ => [SigstoreSig sigMallory; SigstoreSig sigBare; SigstoreSig sigMallory]
  end.

Definition files (path : string) : result (option bytes) :=
  if bool_decide (path = "alice.pub") then Ok (Some (bytes_of_string "alice"))
  else if bool_decide (path = "bob.pub") then Ok (Some (bytes_of_string "bob"))
  else Err (errorString ("open " +:+ path +:+ ": no such file or directory")).

#[export] Instance collaborators : Collaborators := {|
  os_ReadFile := files;
  UnmarshalPEMToPublicKey pem :=
    match pem with
    | [] => Err (errorString "PEM decoding failed")
    | _ => Ok (String.string_of_list_byte pem)
    end;
  MarshalPublicKeyToPEM key :=
    if bool_decide (key = "bob") then Err (errorString "unsupported key type")
    else Ok (bytes_of_string key);
  asECDSA key := Some key;
  NewCertPool := [];
  AppendCertsFromPEM pool pem := (pool ++ [pem], bool_decide (pem <> []));
  fulcio_validate f := None;
  VerifyRekorSET rekor untrustedSET pem sig payload :=
    if bool_decide (untrustedSET = pem) then Ok tt
    else Err (errorString "SET does not cover this key");
  verifyRekorFulcio rekor f untrustedSET cert chain sig payload :=
    if bool_decide (untrustedSET = cert) then Ok (String.string_of_list_byte cert)
    else Err (errorString "SET does not cover this certificate");
  VerifySigstorePayload keys payload sig rules :=
    if bool_decide (sig ∈ keys)
    then match ValidateSignedDockerReference rules "example.com/image" with
         | Some err => (None, None, Some err)
         | None => (Some "example.com/image", Some sig, None)
         end
    else (None, None, Some (errorString "cryptographic signature verification failed"));
  matchesDockerReference _ _ _ := true;
  image_Manifest _ _ := Ok [];
  MatchesDigest _ _ := Ok true;
  UntrustedSignatures image _ := Ok (signaturesOf image);
  SigstoreSignatureAnnotationKey := sigKey;
  SigstoreSETAnnotationKey := setKey;
  SigstoreCertificateAnnotationKey := certKey;
  SigstoreIntermediateCertificateChainAnnotationKey := chainKey;
  SigstoreSignatureMIMEType := mimeType;
  fmt_q s := dq +:+ s +:+ dq;
  sar_string r :=
    match r with
    | sarAccepted => "sarAccepted"
    | sarRejected => "sarRejected"
    | sarUnknown => "sarUnknown"
    end;
  multierr_Format first middle last errs :=
    errorString (first +:+ String.concat middle
                             ((fun e => from_option Error "<nil>" e) <$> errs) +:+ last);
|}.

Definition emptyPolicy : prSigstoreSigned :=
  {| KeyPath := EmptyString; KeyPaths := []; KeyData := None; KeyDatas := [];
     Fulcio := None; RekorPublicKeyPath := EmptyString; RekorPublicKeyData := None;
     SignedIdentity := tt |}.

(** Trusts the key in [alice.pub]. *)
Definition alicePolicy : prSigstoreSigned :=
  {| KeyPath := "alice.pub"; KeyPaths := []; KeyData := None; KeyDatas := [];
     Fulcio := None; RekorPublicKeyPath := EmptyString; RekorPublicKeyData := None;
     SignedIdentity := tt |}.

(** Names a key both by path and inline. *)
Definition twoSourcesPolicy : prSigstoreSigned :=
  {| KeyPath := "alice.pub"; KeyPaths := [];
     KeyData := Some (bytes_of_string "alice"); KeyDatas := [];
     Fulcio := None; RekorPublicKeyPath := EmptyString; RekorPublicKeyData := None;
     SignedIdentity := tt |}.

(** Trusts [alice] and [bob], with a Rekor key. *)
Definition loggedPolicy : prSigstoreSigned :=
  {| KeyPath := EmptyString; KeyPaths := ["alice.pub"; "bob.pub"]; KeyData := None; KeyDatas := [];
     Fulcio := None; RekorPublicKeyPath := EmptyString;
     RekorPublicKeyData := Some (bytes_of_string "rekor");
     SignedIdentity := tt |}.

Definition fulcioConfig : prSigstoreSignedFulcio :=
  {| CAPath := EmptyString; CAData := Some (bytes_of_string "ca");
     OIDCIssuer := "https://issuer.example"; SubjectEmail := "alice@example.com" |}.

(** Trusts a Fulcio CA, with a Rekor key. *)
Definition fulcioPolicy : prSigstoreSigned :=
  {| KeyPath := EmptyString; KeyPaths := []; KeyData := None; KeyDatas := [];
     Fulcio := Some fulcioConfig; RekorPublicKeyPath := EmptyString;
     RekorPublicKeyData := Some (bytes_of_string "rekor");
     SignedIdentity := tt |}.

Definition loggedRoot : sigstoreSignedTrustRoot :=
  {| publicKeys := ["alice"; "bob"]; fulcio := None; rekorPublicKey := Some "rekor" |}.

Definition emptyRoot : sigstoreSignedTrustRoot :=
  {| publicKeys := []; fulcio := None; rekorPublicKey := None |}.

Definition fulcioRoot : sigstoreSignedTrustRoot :=
  {| publicKeys := [];
     fulcio := Some {| caCertificates := [bytes_of_string "ca"];
                       oidcIssuer := "https://issuer.example";
                       subjectEmail := "alice@example.com" |};
     rekorPublicKey := Some "rekor" |}.

(** A signature whose SET does not cover its certificate. *)
Definition sigWrongCert : Sigstore :=
  mkSig mimeType [(sigKey, "alice"); (setKey, "alice"); (certKey, "eve")].

(** Inline keys, the second of which is empty and does not parse. *)
Definition badDataPolicy : prSigstoreSigned :=
  {| KeyPath := EmptyString; KeyPaths := []; KeyData := None;
     KeyDatas := [bytes_of_string "alice"; []];
     Fulcio := None; RekorPublicKeyPath := EmptyString; RekorPublicKeyData := None;
     SignedIdentity := tt |}.

(** Key files, the second of which does not exist. *)
Definition missingFilePolicy : prSigstoreSigned :=
  {| KeyPath := EmptyString; KeyPaths := ["alice.pub"; "carol.pub"]; KeyData := None;
     KeyDatas := [];
     Fulcio := None; RekorPublicKeyPath := EmptyString; RekorPublicKeyData := None;
     SignedIdentity := tt |}.

(** A Rekor key given both inline and by path. *)
Definition doubleRekorPolicy : prSigstoreSigned :=
  {| KeyPath := "alice.pub"; KeyPaths := []; KeyData := None; KeyDatas := [];
     Fulcio := None; RekorPublicKeyPath := "alice.pub";
     RekorPublicKeyData := Some (bytes_of_string "rekor");
     SignedIdentity := tt |}.

Definition aliceRoot : sigstoreSignedTrustRoot :=
  {| publicKeys := ["alice"]; fulcio := None; rekorPublicKey := None |}.

Definition fulcioDescriptor : fulcioTrustRoot :=
  {| caCertificates := [bytes_of_string "ca"];
     oidcIssuer := "https://issuer.example";
     subjectEmail := "alice@example.com" |}.

(** A Fulcio section without any CA. *)
Definition withoutCA (f : prSigstoreSignedFulcio) : prSigstoreSignedFulcio :=
  {| CAPath := EmptyString; CAData := None;
     OIDCIssuer := OIDCIssuer f; SubjectEmail := SubjectEmail f |}.

(** [KeyPath] and [KeyPaths] both set, no inline data. *)
Definition singularAndPluralPolicy : prSigstoreSigned :=
  {| KeyPath := "alice.pub"; KeyPaths := ["bob.pub"]; KeyData := None; KeyDatas := [];
     Fulcio := None; RekorPublicKeyPath := EmptyString; RekorPublicKeyData := None;
     SignedIdentity := tt |}.

(** [KeyData] and [KeyDatas] both set, no key file. *)
Definition singularAndPluralDataPolicy : prSigstoreSigned :=
  {| KeyPath := EmptyString; KeyPaths := [];
     KeyData := Some (bytes_of_string "alice"); KeyDatas := [bytes_of_string "bob"];
     Fulcio := None; RekorPublicKeyPath := EmptyString; RekorPublicKeyData := None;
     SignedIdentity := tt |}.

(** A key file next to a list of inline keys. *)
Definition pathAndDatasPolicy : prSigstoreSigned :=
  {| KeyPath := "alice.pub"; KeyPaths := ["bob.pub"];
     KeyData := None; KeyDatas := [bytes_of_string "bob"];
     Fulcio := None; RekorPublicKeyPath := EmptyString; RekorPublicKeyData := None;
     SignedIdentity := tt |}.

(** A public key and a Fulcio CA together, with a Rekor key. *)
Definition bothPolicy : prSigstoreSigned :=
  {| KeyPath := "alice.pub"; KeyPaths := []; KeyData := None; KeyDatas := [];
     Fulcio := Some fulcioConfig; RekorPublicKeyPath := EmptyString;
     RekorPublicKeyData := Some (bytes_of_string "rekor");
     SignedIdentity := tt |}.

Definition bothRoot : sigstoreSignedTrustRoot :=
  {| publicKeys := ["alice"]; fulcio := Some fulcioDescriptor;
     rekorPublicKey := Some "rekor" |}.

End Fixture.

(** ** Properties *)

Section Properties.
Context `{Collaborators}.

(** *** Key material loader *)

(** C4.  The loader, on an (inline data, path) pair: with data non-nil and
    path non-empty it fails; with only the path it returns what the file
    read returns, the contents on success and the read error on failure;
    with only the data it returns the data; with neither it returns nil
    and no error. *)
Theorem loadBytesFromDataOrPath_contract (prefix : string) :
  (forall (d : bytes) (path : string), path <> EmptyString ->
     loadBytesFromDataOrPath prefix (Some d) path
     = Err (errorString ("Internal inconsistency: both " +:+ dq +:+ prefix +:+ "Path" +:+ dq
                         +:+ " and " +:+ dq +:+ prefix +:+ "Data" +:+ dq +:+ " specified")))
  /\ (forall (path : string) (contents : option bytes), path <> EmptyString ->
        os_ReadFile path = Ok contents ->
        loadBytesFromDataOrPath prefix None path = Ok contents)
  /\ (forall (path : string) (e : error), path <> EmptyString ->
        os_ReadFile path = Err e ->
        loadBytesFromDataOrPath prefix None path = Err e)
  /\ (forall d : bytes, loadBytesFromDataOrPath prefix (Some d) EmptyString = Ok (Some d))
  /\ loadBytesFromDataOrPath prefix None EmptyString = Ok None.
Proof.
  unfold loadBytesFromDataOrPath.
  repeat split.
  - intros d path Hp. by rewrite bool_decide_eq_true_2.
  - intros path contents Hp Hr. rewrite bool_decide_eq_true_2 by done. by rewrite Hr.
  - intros path e Hp Hr. rewrite bool_decide_eq_true_2 by done. by rewrite Hr.
Qed.

(** *** Trust root *)

Lemma keyPaths_nonempty (pr : prSigstoreSigned) :
  keyPaths pr <> [] <-> KeyPath pr <> EmptyString \/ KeyPaths pr <> [].
Proof.
  unfold keyPaths. case_bool_decide as Hp; split; try done.
  - by left.
  - by right.
  - intros [Hk | Hk]; [by destruct Hp | done].
Qed.

Lemma keyDatas_nonempty (pr : prSigstoreSigned) :
  keyDatas pr <> [] <-> (exists d, KeyData pr = Some d /\ d <> []) \/ KeyDatas pr <> [].
Proof.
  unfold keyDatas. destruct (KeyData pr) as [d|].
  - case_bool_decide as Hd; split; try done.
    + intros _. left. exists d. split; [done|]. destruct d; [simpl in Hd; lia | done].
    + by right.
    + intros [(d' & [= <-] & Hne) | Hk]; [|done].
      destruct d; [done | simpl in Hd; lia].
  - split; [by right|]. by intros [(d & [=] & _) | Hk].
Qed.

Lemma keyPaths_sources (pr : prSigstoreSigned) (p : string) :
  p ∈ keyPaths pr -> p = KeyPath pr \/ p ∈ KeyPaths pr.
Proof.
  unfold keyPaths. case_bool_decide; [|by right].
  intros ->%list_elem_of_singleton. by left.
Qed.

Lemma keyDatas_sources (pr : prSigstoreSigned) (d : bytes) :
  d ∈ keyDatas pr -> KeyData pr = Some d \/ d ∈ KeyDatas pr.
Proof.
  unfold keyDatas. destruct (KeyData pr) as [d'|]; [|by right].
  case_bool_decide; [|by right].
  intros ->%list_elem_of_singleton. by left.
Qed.

(** C1, as the code has it.  [prepareTrustRoot] does not add the singular
    and the plural key source together: its path list is [KeyPath] alone
    when that is set, and [KeyPaths] otherwise; its data list is [KeyData]
    alone when that is neither nil nor empty, and [KeyDatas] otherwise.
    When both resulting lists are non-empty the preparation fails, whatever
    the lists hold. *)
Theorem prepareTrustRoot_key_sources_exclusive (pr : prSigstoreSigned) :
  (KeyPath pr <> EmptyString -> keyPaths pr = [KeyPath pr])
  /\ (KeyPath pr = EmptyString -> keyPaths pr = KeyPaths pr)
  /\ (forall d, KeyData pr = Some d -> d <> [] -> keyDatas pr = [d])
  /\ (KeyData pr = None \/ KeyData pr = Some [] -> keyDatas pr = KeyDatas pr)
  /\ (keyPaths pr <> [] -> keyDatas pr <> [] ->
      prepareTrustRoot pr = Err (errorString "Too many key sources are specified")).
Proof.
  split; [|split; [|split; [|split]]].
  - intros Hp. unfold keyPaths. by rewrite bool_decide_eq_true_2.
  - intros Hp. unfold keyPaths. by rewrite bool_decide_eq_false_2 by (by intros []).
  - intros d Hd Hne. unfold keyDatas. rewrite Hd.
    rewrite bool_decide_eq_true_2; [done|]. destruct d; [done | simpl; lia].
  - intros [Hd | Hd]; unfold keyDatas; by rewrite Hd.
  - intros Hp Hd. unfold prepareTrustRoot.
    destruct (keyPaths pr) as [|p ps]; [done|].
    destruct (keyDatas pr) as [|d ds]; [done|].
    reflexivity.
Qed.

(** *** Author acceptance *)

(** C9.  [isSignatureAuthorAccepted] returns the rejected result, a nil
    [Signature] and the not-implemented error, the same for all
    arguments. *)
Theorem isSignatureAuthorAccepted_not_implemented
    (pr : prSigstoreSigned) (ctx : GoContext) (image : UnparsedImage) (sig : bytes) :
  isSignatureAuthorAccepted pr ctx image sig
  = (sarRejected, None,
     Some (errorString "isSignatureAuthorAccepted is not implemented for sigstore"))
  /\ forall pr' ctx' image' sig',
       isSignatureAuthorAccepted pr' ctx' image' sig'
       = isSignatureAuthorAccepted pr ctx image sig.
Proof. split; reflexivity. Qed.

(** *** Acceptance of one signature *)

Lemma verifyPayload_cases (pr : prSigstoreSigned) (ctx : GoContext) (image : UnparsedImage)
    (keys : list PublicKey) (payload : bytes) (b64 : string) (log : list LogEntry) :
  (exists claims key,
      VerifySigstorePayload keys payload b64 (acceptanceRules pr ctx image)
      = (Some claims, key, None)
      /\ verifyPayload pr ctx image keys payload b64 log
         = ({| sar_result := sarAccepted; sar_key := key |}, None, log))
  \/ (exists e, verifyPayload pr ctx image keys payload b64 log = reject e log).
Proof.
  unfold verifyPayload. case_bool_decide; [right; eauto|].
  destruct (VerifySigstorePayload _ _ _ _) as [[[claims|] key] [err|]];
    [right; eauto | left; eauto | right; eauto | right; eauto].
Qed.

Lemma filter_all_fail {A} (f : A -> bool) (l : list A) :
  Forall (fun x => f x = false) l -> filter (fun x => f x = true) l = [].
Proof.
  induction 1 as [|x xs Hx _ IH]; [done|].
  rewrite filter_cons, decide_False; [done|]. by rewrite Hx.
Qed.

Lemma filter_some_pass {A} (f : A -> bool) (l : list A) :
  Exists (fun x => f x = true) l -> filter (fun x => f x = true) l <> [].
Proof.
  induction 1 as [x xs Hx|x xs _ IH]; rewrite filter_cons.
  - by rewrite decide_True.
  - by case_decide.
Qed.

Lemma rekorKey_cases (rekor : ECDSAPublicKey) (untrustedSET : bytes) (b64 : string)
    (payload : bytes) (key : PublicKey) :
  (rekorKeyOK rekor untrustedSET b64 payload key = true
   /\ rekorKeyLog rekor untrustedSET b64 payload key = []
   /\ exists pem t, MarshalPublicKeyToPEM key = Ok pem
                    /\ VerifyRekorSET rekor untrustedSET pem b64 payload = Ok t)
  \/ (rekorKeyOK rekor untrustedSET b64 payload key = false
      /\ exists line, rekorKeyLog rekor untrustedSET b64 payload key = [line]).
Proof.
  unfold rekorKeyOK, rekorKeyLog.
  destruct (MarshalPublicKeyToPEM key) as [pem|err].
  - destruct (VerifyRekorSET rekor untrustedSET pem b64 payload) as [t|err] eqn:Hv.
    + left. split; [done|]. split; [done|]. by exists pem, t.
    + right. split; [done|]. eexists; reflexivity.
  - right. split; [done|]. eexists; reflexivity.
Qed.

Lemma rekorFilter_step (rekor : ECDSAPublicKey) (untrustedSET : bytes) (b64 : string)
    (payload : bytes) (key : PublicKey) (rest acc : list PublicKey) (log : list LogEntry) :
  rekorFilter rekor untrustedSET b64 payload (key :: rest) acc log
  = rekorFilter rekor untrustedSET b64 payload rest
      (if rekorKeyOK rekor untrustedSET b64 payload key then acc ++ [key] else acc)
      (log ++ rekorKeyLog rekor untrustedSET b64 payload key).
Proof.
  simpl. unfold rekorKeyOK, rekorKeyLog.
  destruct (MarshalPublicKeyToPEM key) as [pem|err]; [|done].
  destruct (VerifyRekorSET rekor untrustedSET pem b64 payload) as [t|err]; [|done].
  by rewrite app_nil_r.
Qed.

Lemma rekorFilter_spec (rekor : ECDSAPublicKey) (untrustedSET : bytes) (b64 : string)
    (payload : bytes) (keys acc : list PublicKey) (log : list LogEntry) :
  rekorFilter rekor untrustedSET b64 payload keys acc log
  = (acc ++ filter (fun k => rekorKeyOK rekor untrustedSET b64 payload k = true) keys,
     log ++ concat (rekorKeyLog rekor untrustedSET b64 payload <$> keys)).
Proof.
  revert acc log. induction keys as [|key rest IH]; intros acc log.
  - simpl. by rewrite !app_nil_r.
  - rewrite rekorFilter_step, IH, filter_cons, fmap_cons.
    change (concat (?x :: ?xs)) with (x ++ concat xs).
    destruct (rekorKeyOK rekor untrustedSET b64 payload key) eqn:Hok.
    + rewrite decide_True; [|done]. by rewrite <- !app_assoc.
    + rewrite decide_False; [|done]. by rewrite <- !app_assoc.
Qed.

Lemma rekorKeyLog_length (rekor : ECDSAPublicKey) (untrustedSET : bytes) (b64 : string)
    (payload : bytes) (keys : list PublicKey) :
  length (concat (rekorKeyLog rekor untrustedSET b64 payload <$> keys))
  + length (filter (fun k => rekorKeyOK rekor untrustedSET b64 payload k = true) keys)
  = length keys.
Proof.
  induction keys as [|key rest IH]; [done|].
  rewrite fmap_cons, filter_cons.
  change (concat (?x :: ?xs)) with (x ++ concat xs). rewrite length_app.
  destruct (rekorKey_cases rekor untrustedSET b64 payload key)
    as [(-> & -> & _) | (-> & line & ->)].
  - rewrite decide_True; [|done]. simpl. lia.
  - rewrite decide_False; [|done]. simpl. lia.
Qed.

(** C3.  Direct public keys with a Rekor key, for a signature carrying the
    signature and SET annotations: the keys handed on are exactly the
    configured keys that pass the re-encoding and the SET check, in order,
    whatever happens to the keys around them, with one log line per
    dropped key; when none passes, the signature is rejected with
    [No public key verified against the RekorSET] and the payload verifier
    is not consulted; otherwise the payload is verified under the
    survivors. *)
Theorem rekor_check_filters_keys (pr : prSigstoreSigned) (ctx : GoContext)
    (image : UnparsedImage) (sig : Sigstore) (tr : sigstoreSignedTrustRoot)
    (rekor : ECDSAPublicKey) (b64 untrustedSET : string) :
  prepareTrustRoot pr = Ok tr ->
  directKeys tr ->
  rekorPublicKey tr = Some rekor ->
  UntrustedAnnotations sig !! SigstoreSignatureAnnotationKey = Some b64 ->
  UntrustedAnnotations sig !! SigstoreSETAnnotationKey = Some untrustedSET ->
  let passes := rekorKeyOK rekor (bytes_of_string untrustedSET) b64 (UntrustedPayload sig) in
  let survivors := filter (fun k => passes k = true) (publicKeys tr) in
  let log := concat (rekorKeyLog rekor (bytes_of_string untrustedSET) b64
                       (UntrustedPayload sig) <$> publicKeys tr) in
  rekorFilter rekor (bytes_of_string untrustedSET) b64 (UntrustedPayload sig)
    (publicKeys tr) [] [] = (survivors, log)
  /\ length log + length survivors = length (publicKeys tr)
  /\ (Forall (fun k => passes k = false) (publicKeys tr) ->
      isSignatureAccepted pr ctx image sig
      = reject (errorString "No public key verified against the RekorSET") log)
  /\ (Exists (fun k => passes k = true) (publicKeys tr) ->
      isSignatureAccepted pr ctx image sig
      = verifyPayload pr ctx image survivors (UntrustedPayload sig) b64 log).
Proof.
  intros Htr [Hkeys Hfulcio] Hrekor Hsig Hset passes survivors log.
  assert (Hloop : rekorFilter rekor (bytes_of_string untrustedSET) b64 (UntrustedPayload sig)
                    (publicKeys tr) [] [] = (survivors, log)) by apply rekorFilter_spec.
  assert (Hrun : isSignatureAccepted pr ctx image sig
                 = if bool_decide (length survivors = 0)
                   then reject (errorString "No public key verified against the RekorSET") log
                   else verifyPayload pr ctx image survivors (UntrustedPayload sig) b64 log).
  { unfold isSignatureAccepted, isSignatureAccepted_with.
    rewrite Htr. simpl. rewrite Hsig, Hfulcio, Hrekor, Hset, Hloop.
    destruct (publicKeys tr); [done|]. reflexivity. }
  split; [done|]. split; [apply rekorKeyLog_length|]. split.
  - intros Hall. rewrite Hrun, bool_decide_eq_true_2; [done|].
    subst survivors. by rewrite filter_all_fail.
  - intros Hex. rewrite Hrun, bool_decide_eq_false_2; [done|].
    subst survivors. intros Hlen%length_zero_iff_nil. by eapply filter_some_pass.
Qed.

Lemma isSignatureAccepted_cases (pr : prSigstoreSigned) (ctx : GoContext)
    (image : UnparsedImage) (sig : Sigstore) :
  (exists keys b64 claims key log,
      VerifySigstorePayload keys (UntrustedPayload sig) b64 (acceptanceRules pr ctx image)
      = (Some claims, key, None)
      /\ isSignatureAccepted pr ctx image sig
         = ({| sar_result := sarAccepted; sar_key := key |}, None, log))
  \/ (exists e log, isSignatureAccepted pr ctx image sig = reject e log).
Proof.
  assert (Hvp : forall keys b64 log o,
      verifyPayload pr ctx image keys (UntrustedPayload sig) b64 log = o ->
      (exists keys b64 claims key log,
          VerifySigstorePayload keys (UntrustedPayload sig) b64 (acceptanceRules pr ctx image)
          = (Some claims, key, None)
          /\ o = ({| sar_result := sarAccepted; sar_key := key |}, None, log))
      \/ (exists e log, o = reject e log)).
  { intros keys b64 log o <-.
    destruct (verifyPayload_cases pr ctx image keys (UntrustedPayload sig) b64 log)
      as [(claims & key & Hv & ->) | (e & ->)].
    - left. by exists keys, b64, claims, key, log.
    - right. by exists e, log. }
  unfold isSignatureAccepted.
  destruct (prepareTrustRoot pr) as [tr|e]; [|right; by eexists _, _].
  unfold isSignatureAccepted_with.
  destruct (UntrustedAnnotations sig !! SigstoreSignatureAnnotationKey) as [b64|];
    [|right; by eexists _, _].
  case_bool_decide; destruct (fulcio tr) as [f|];
    destruct (rekorPublicKey tr) as [rekor|]; try (right; by eexists _, _);
    try (by eapply Hvp).
  - destruct (UntrustedAnnotations sig !! SigstoreSETAnnotationKey) as [set|];
      [|right; by eexists _, _].
    destruct (rekorFilter _ _ _ _ _ _ _) as [keys log].
    case_bool_decide; [right; by eexists _, _ | by eapply Hvp].
  - destruct (UntrustedAnnotations sig !! SigstoreSETAnnotationKey) as [set|];
      [|right; by eexists _, _].
    destruct (UntrustedAnnotations sig !! SigstoreCertificateAnnotationKey) as [cert|];
      [|right; by eexists _, _].
    destruct (verifyRekorFulcio _ _ _ _ _ _ _) as [pk|e];
      [by eapply Hvp | right; by eexists _, _].
Qed.

(** C10.  [isSignatureAccepted] returns either the accepted result with a
    nil error and the key the payload verifier reported, or the rejected
    result, whose key is nil, with a non-nil error; never the unknown
    result, and never an accepted result with an error. *)
Theorem isSignatureAccepted_result_invariant (pr : prSigstoreSigned) (ctx : GoContext)
    (image : UnparsedImage) (sig : Sigstore) :
  let '(res, err, _) := isSignatureAccepted pr ctx image sig in
  ((sar_result res = sarAccepted /\ err = None
    /\ exists keys b64 claims,
         VerifySigstorePayload keys (UntrustedPayload sig) b64 (acceptanceRules pr ctx image)
         = (Some claims, sar_key res, None))
   \/ (sar_result res = sarRejected /\ sar_key res = None /\ exists e, err = Some e))
  /\ sar_result res <> sarUnknown
  /\ (sar_result res = sarAccepted -> err = None).
Proof.
  destruct (isSignatureAccepted_cases pr ctx image sig)
    as [(keys & b64 & claims & key & log & Hv & ->) | (e & log & ->)]; simpl.
  - split; [|done]. left. split; [done|]. split; [done|]. by exists keys, b64, claims.
  - split; [|done]. right. split; [done|]. split; [done|]. by exists e.
Qed.

Lemma isSignatureAccepted_prepared (pr : prSigstoreSigned) (ctx : GoContext)
    (image : UnparsedImage) (sig : Sigstore) (tr : sigstoreSignedTrustRoot) :
  prepareTrustRoot pr = Ok tr ->
  isSignatureAccepted pr ctx image sig = isSignatureAccepted_with tr pr ctx image sig.
Proof. intros Htr. unfold isSignatureAccepted. by rewrite Htr. Qed.

Lemma has_keys_true (tr : sigstoreSignedTrustRoot) :
  publicKeys tr <> [] -> bool_decide (0 < length (publicKeys tr)) = true.
Proof. intros Hk. apply bool_decide_eq_true_2. destruct (publicKeys tr); [done | simpl; lia]. Qed.

Lemma has_keys_false (tr : sigstoreSignedTrustRoot) :
  publicKeys tr = [] -> bool_decide (0 < length (publicKeys tr)) = false.
Proof. intros ->. apply bool_decide_eq_false_2. simpl. lia. Qed.

Lemma missing_signature_annotation (pr : prSigstoreSigned) (ctx : GoContext)
    (image : UnparsedImage) (sig : Sigstore) (tr : sigstoreSignedTrustRoot) :
  prepareTrustRoot pr = Ok tr ->
  UntrustedAnnotations sig !! SigstoreSignatureAnnotationKey = None ->
  isSignatureAccepted pr ctx image sig
  = reject (missingAnnotation SigstoreSignatureAnnotationKey) [].
Proof.
  intros Htr Hsig. rewrite (isSignatureAccepted_prepared _ _ _ _ _ Htr).
  unfold isSignatureAccepted_with. by rewrite Hsig.
Qed.

Lemma missing_SET_annotation (pr : prSigstoreSigned) (ctx : GoContext)
    (image : UnparsedImage) (sig : Sigstore) (tr : sigstoreSignedTrustRoot) (b64 : string) :
  prepareTrustRoot pr = Ok tr ->
  UntrustedAnnotations sig !! SigstoreSignatureAnnotationKey = Some b64 ->
  rekorPublicKey tr <> None ->
  directKeys tr \/ certificateAuthority tr ->
  UntrustedAnnotations sig !! SigstoreSETAnnotationKey = None ->
  isSignatureAccepted pr ctx image sig = reject (missingAnnotation SigstoreSETAnnotationKey) [].
Proof.
  intros Htr Hsig Hrekor Hshape Hset. rewrite (isSignatureAccepted_prepared _ _ _ _ _ Htr).
  unfold isSignatureAccepted_with. rewrite Hsig. simpl.
  destruct (rekorPublicKey tr) as [rekor|]; [|done].
  destruct Hshape as [[Hkeys Hfulcio] | (Hkeys & Hfulcio & _)].
  - by rewrite has_keys_true, Hfulcio, Hset.
  - rewrite has_keys_false by done. destruct (fulcio tr); [|done]. by rewrite Hset.
Qed.

Lemma missing_certificate_annotation (pr : prSigstoreSigned) (ctx : GoContext)
    (image : UnparsedImage) (sig : Sigstore) (tr : sigstoreSignedTrustRoot)
    (b64 untrustedSET : string) :
  prepareTrustRoot pr = Ok tr ->
  UntrustedAnnotations sig !! SigstoreSignatureAnnotationKey = Some b64 ->
  certificateAuthority tr ->
  UntrustedAnnotations sig !! SigstoreSETAnnotationKey = Some untrustedSET ->
  UntrustedAnnotations sig !! SigstoreCertificateAnnotationKey = None ->
  isSignatureAccepted pr ctx image sig
  = reject (missingAnnotation SigstoreCertificateAnnotationKey) [].
Proof.
  intros Htr Hsig (Hkeys & Hfulcio & Hrekor) Hset Hcert.
  rewrite (isSignatureAccepted_prepared _ _ _ _ _ Htr).
  unfold isSignatureAccepted_with. rewrite Hsig. simpl.
  rewrite has_keys_false by done.
  destruct (fulcio tr); [|done]. destruct (rekorPublicKey tr); [|done].
  by rewrite Hset, Hcert.
Qed.

(** C7, as the code has it.  Under a prepared trust root, a signature
    without the signature annotation is rejected for it, whatever the shape
    of the trust root.  Under a prepared trust root with exactly one
    mechanism, a signature whose annotations lack a mandatory one (the
    signature; the Rekor SET when a Rekor key is configured, in the
    direct-key and in the Fulcio branch; the certificate in the Fulcio
    branch, which has a Rekor key) is rejected, and the error names a
    mandatory annotation that is missing: [missing KEY annotation]. *)
Theorem missing_mandatory_annotation_rejected (pr : prSigstoreSigned) (ctx : GoContext)
    (image : UnparsedImage) (sig : Sigstore) (tr : sigstoreSignedTrustRoot) (key : string) :
  prepareTrustRoot pr = Ok tr ->
  mandatory tr key ->
  UntrustedAnnotations sig !! key = None ->
  exists key',
    mandatory tr key'
    /\ UntrustedAnnotations sig !! key' = None
    /\ (UntrustedAnnotations sig !! SigstoreSignatureAnnotationKey = None ->
        key' = SigstoreSignatureAnnotationKey)
    /\ isSignatureAccepted pr ctx image sig
       = ({| sar_result := sarRejected; sar_key := None |},
          Some (errorString ("missing " +:+ key' +:+ " annotation")), []).
Proof.
  intros Htr Hmand Hmiss.
  destruct (UntrustedAnnotations sig !! SigstoreSignatureAnnotationKey) as [b64|] eqn:Hsig.
  2:{ exists SigstoreSignatureAnnotationKey. split; [by left|]. split; [done|].
      split; [done|]. by apply missing_signature_annotation with tr. }
  destruct Hmand as [-> | [(-> & Hrekor & Hshape) | (-> & Hca)]].
  - congruence.
  - exists SigstoreSETAnnotationKey. split; [right; left; done|]. split; [done|].
    split; [done|]. by apply missing_SET_annotation with tr b64.
  - destruct (UntrustedAnnotations sig !! SigstoreSETAnnotationKey) as [set|] eqn:Hset.
    + exists SigstoreCertificateAnnotationKey. split; [right; right; done|]. split; [done|].
      split; [done|]. by apply missing_certificate_annotation with tr b64 set.
    + exists SigstoreSETAnnotationKey.
      split; [right; left; split; [done|]; split; [apply Hca | by right]|].
      split; [done|]. split; [done|]. apply missing_SET_annotation with tr b64; try done.
      * apply Hca.
      * by right.
Qed.

(** C6, as the code has it.  Under a trust root that breaks the
    exactly-one-mechanism invariant, a signature that carries the signature
    annotation is rejected with the internal-inconsistency error of the
    broken case; one that lacks it is rejected for the missing annotation.
    No signature is accepted. *)
Theorem inconsistent_trust_root_rejected (pr : prSigstoreSigned) (ctx : GoContext)
    (image : UnparsedImage) (sig : Sigstore) (tr : sigstoreSignedTrustRoot) :
  prepareTrustRoot pr = Ok tr ->
  violatesInvariant tr ->
  (forall b64, UntrustedAnnotations sig !! SigstoreSignatureAnnotationKey = Some b64 ->
     exists e,
       isSignatureAccepted pr ctx image sig = reject e []
       /\ internalInconsistency e = true
       /\ (bothMechanisms tr -> e = errorString
             "Internal inconsistency: Both a public key and Fulcio CA specified")
       /\ (noMechanism tr -> e = errorString
             "Internal inconsistency: Neither a public key nor a Fulcio CA specified")
       /\ (fulcioWithoutRekor tr -> e = errorString
             "Internal inconsistency: Fulcio CA specified without a Rekor public key"))
  /\ (UntrustedAnnotations sig !! SigstoreSignatureAnnotationKey = None ->
      isSignatureAccepted pr ctx image sig
      = reject (missingAnnotation SigstoreSignatureAnnotationKey) [])
  /\ sar_result (isSignatureAccepted pr ctx image sig).1.1 = sarRejected.
Proof.
  intros Htr Hviol.
  assert (Hpresent : forall b64,
    UntrustedAnnotations sig !! SigstoreSignatureAnnotationKey = Some b64 ->
    exists e,
      isSignatureAccepted pr ctx image sig = reject e []
      /\ internalInconsistency e = true
      /\ (bothMechanisms tr -> e = errorString
            "Internal inconsistency: Both a public key and Fulcio CA specified")
      /\ (noMechanism tr -> e = errorString
            "Internal inconsistency: Neither a public key nor a Fulcio CA specified")
      /\ (fulcioWithoutRekor tr -> e = errorString
            "Internal inconsistency: Fulcio CA specified without a Rekor public key")).
  { intros b64 Hsig. rewrite (isSignatureAccepted_prepared _ _ _ _ _ Htr).
    unfold isSignatureAccepted_with, bothMechanisms, noMechanism, fulcioWithoutRekor.
    rewrite Hsig. simpl.
    destruct Hviol as [[Hkeys Hfulcio] | [[Hkeys Hfulcio] | (Hkeys & Hfulcio & Hrekor)]].
    - rewrite has_keys_true by done. destruct (fulcio tr) as [f|]; [|done].
      eexists. split; [reflexivity|]. split; [reflexivity|].
      split; [done|]. split; [by intros [_ [=]] | by intros [? _]].
    - rewrite has_keys_false, Hfulcio by done.
      eexists. split; [reflexivity|]. split; [reflexivity|].
      split; [by intros [? ?] | split; [done | by intros (_ & ? & _)]].
    - rewrite has_keys_false, Hrekor by done. destruct (fulcio tr) as [f|]; [|done].
      eexists. split; [reflexivity|]. split; [reflexivity|].
      split; [by intros [? _] | split; [by intros [_ [=]] | done]]. }
  split; [exact Hpresent|]. split.
  - intros Hsig. by apply missing_signature_annotation with tr.
  - destruct (UntrustedAnnotations sig !! SigstoreSignatureAnnotationKey) as [b64|] eqn:Hsig.
    + destruct (Hpresent b64 eq_refl) as (e & -> & _). done.
    + by rewrite (missing_signature_annotation _ _ _ _ _ Htr Hsig).
Qed.

(** *** Admission of an image *)

Lemma countNonSigstore_cons (s : Signature) (rest : list Signature) :
  countNonSigstore (s :: rest) = (if isOtherSig s then 1 else 0) + countNonSigstore rest.
Proof.
  unfold countNonSigstore. rewrite filter_cons.
  destruct (isOtherSig s); [by rewrite decide_True | by rewrite decide_False].
Qed.

Lemma countNonAttachments_cons (s : Signature) (rest : list Signature) :
  countNonAttachments (s :: rest)
  = (if isNonAttachment s then 1 else 0) + countNonAttachments rest.
Proof.
  unfold countNonAttachments. rewrite filter_cons.
  destruct (isNonAttachment s); [by rewrite decide_True | by rewrite decide_False].
Qed.

(** The loop, as long as no applicable signature is accepted: every
    applicable signature adds its reason and its log lines, every other
    one bumps its counter. *)
Lemma admitLoop_none_accepted (pr : prSigstoreSigned) (ctx : GoContext)
    (image : UnparsedImage) (sigs : list Signature) :
  Forall (fun s => accepted pr ctx image s = false) (applicable sigs) ->
  forall rejections n1 n2 log,
    admitLoop pr ctx image sigs rejections n1 n2 log
    = (false,
       summary (rejections ++ (reasonOf pr ctx image <$> applicable sigs))
         (n1 + countNonSigstore sigs) (n2 + countNonAttachments sigs),
       log ++ concat (logOf pr ctx image <$> applicable sigs)).
Proof.
  induction sigs as [|[s|o] rest IH]; intros Hnone rejections n1 n2 log.
  - simpl. by rewrite !app_nil_r, !Nat.add_0_r.
  - rewrite countNonSigstore_cons, countNonAttachments_cons. simpl in *.
    case_bool_decide as Hmime.
    + rewrite IH by done. by rewrite <- !Nat.add_assoc.
    + apply Forall_cons in Hnone as [Hs Hrest].
      unfold accepted, verdict in Hs. rewrite fmap_cons, fmap_cons.
      unfold reasonOf at 1, logOf at 1, verdict.
      destruct (isSignatureAccepted pr ctx image s) as [[res err] l]. simpl in *.
      change (concat (?x :: ?xs)) with (x ++ concat xs).
      destruct (sar_result res); [done| |]; rewrite IH by done;
        by rewrite <- !app_assoc.
  - rewrite countNonSigstore_cons, countNonAttachments_cons. simpl.
    rewrite IH by done. by rewrite <- !Nat.add_assoc.
Qed.

(** The loop up to the first accepted signature: it returns there. *)
Lemma admitLoop_first_accepted (pr : prSigstoreSigned) (ctx : GoContext)
    (image : UnparsedImage) (pre post : list Signature) (s : Sigstore) :
  Forall (fun s' => accepted pr ctx image s' = false) (applicable pre) ->
  UntrustedMIMEType s = SigstoreSignatureMIMEType ->
  verdict pr ctx image s = sarAccepted ->
  forall rejections n1 n2 log,
    admitLoop pr ctx image (pre ++ SigstoreSig s :: post) rejections n1 n2 log
    = (true, None,
       log ++ concat (logOf pr ctx image <$> applicable pre) ++ logOf pr ctx image s).
Proof.
  intros Hnone Hmime Hacc.
  induction pre as [|[s'|o] rest IH]; intros rejections n1 n2 log.
  - simpl. rewrite bool_decide_eq_false_2 by (by intros []).
    unfold verdict, logOf in *.
    destruct (isSignatureAccepted pr ctx image s) as [[res err] l]. simpl in *.
    by rewrite Hacc.
  - simpl in *. case_bool_decide as Hmime'; [by apply IH|].
    apply Forall_cons in Hnone as [Hs Hrest].
    unfold accepted, verdict in Hs. rewrite fmap_cons.
    unfold logOf at 1.
    destruct (isSignatureAccepted pr ctx image s') as [[res err] l]. simpl in *.
    change (concat (?x :: ?xs)) with (x ++ concat xs).
    destruct (sar_result res); [done| |]; rewrite IH by done; by rewrite <- !app_assoc.
  - simpl in *. by apply IH.
Qed.

(** C5.  Signatures are taken in retrieval order, and the first applicable
    one that is accepted ends the loop with [(true, nil)]: the result, log
    included, is fixed by the signatures up to that one, whatever follows
    it. *)
Theorem first_accepted_signature_admits (pr : prSigstoreSigned) (ctx : GoContext)
    (image : UnparsedImage) (pre post : list Signature) (s : Sigstore) :
  UntrustedSignatures image ctx = Ok (pre ++ SigstoreSig s :: post) ->
  UntrustedMIMEType s = SigstoreSignatureMIMEType ->
  Forall (fun s' => accepted pr ctx image s' = false) (applicable pre) ->
  verdict pr ctx image s = sarAccepted ->
  isRunningImageAllowed pr ctx image
  = (true, None, concat (logOf pr ctx image <$> applicable pre) ++ logOf pr ctx image s)
  /\ forall post' rejections n1 n2 log,
       admitLoop pr ctx image (pre ++ SigstoreSig s :: post') rejections n1 n2 log
       = admitLoop pr ctx image (pre ++ [SigstoreSig s]) rejections n1 n2 log.
Proof.
  intros Hsigs Hmime Hnone Hacc. split.
  - unfold isRunningImageAllowed. rewrite Hsigs.
    by rewrite admitLoop_first_accepted.
  - intros post' rejections n1 n2 log.
    by rewrite !admitLoop_first_accepted.
Qed.

Lemma append_empty_r (s : string) : s +:+ EmptyString = s.
Proof.
  induction s as [|c s IH]; [done|].
  change (String c (s +:+ EmptyString) = String c s). by rewrite IH.
Qed.

Lemma reasonOf_is_error (pr : prSigstoreSigned) (ctx : GoContext) (image : UnparsedImage)
    (s : Sigstore) :
  exists e, reasonOf pr ctx image s = Some e.
Proof.
  unfold reasonOf, verdict.
  destruct (isSignatureAccepted_cases pr ctx image s)
    as [(keys & b64 & claims & key & log & _ & ->) | (e & log & ->)]; simpl; by eexists.
Qed.

Lemma reasons_are_errors (pr : prSigstoreSigned) (ctx : GoContext) (image : UnparsedImage)
    (l : list Sigstore) :
  exists reasons : list error, reasonOf pr ctx image <$> l = Some <$> reasons.
Proof.
  induction l as [|s l [reasons IH]]; [by exists []|].
  destruct (reasonOf_is_error pr ctx image s) as [e He].
  exists (e :: reasons). by rewrite !fmap_cons, He, IH.
Qed.

(** C8.  When no applicable signature is accepted, the image is refused
    and the error follows from the recorded rejections and the two
    counters: none and both counters zero, the plain message; none and a
    counter non-zero, the message with both counts; exactly one, that
    rejection itself; two or more, one [PolicyRequirementError] whose
    message is what [multierr.Format] makes of the header, the separator
    and all the rejections, that is the header followed by all reasons
    joined. *)
Theorem rejection_summary (pr : prSigstoreSigned) (ctx : GoContext)
    (image : UnparsedImage) (sigs : list Signature) :
  UntrustedSignatures image ctx = Ok sigs ->
  Forall (fun s => accepted pr ctx image s = false) (applicable sigs) ->
  let n1 := countNonSigstore sigs in
  let n2 := countNonAttachments sigs in
  exists (reasons : list error) (err : error),
    reasonOf pr ctx image <$> applicable sigs = Some <$> reasons
    /\ (isRunningImageAllowed pr ctx image).1 = (false, Some err)
    /\ (reasons = [] -> n1 = 0 -> n2 = 0 ->
        err = PolicyRequirementError "A signature was required, but no signature exists")
    /\ (reasons = [] -> n1 <> 0 \/ n2 <> 0 ->
        err = PolicyRequirementError
                ("A signature was required, but no signature exists ("
                 +:+ pretty n1 +:+ " non-sigstore signatures, "
                 +:+ pretty n2 +:+ " sigstore non-signature attachments)"))
    /\ (forall reason, reasons = [reason] -> err = reason)
    /\ (2 <= length reasons ->
        err = PolicyRequirementError
                (Error (multierr_Format "None of the signatures were accepted, reasons: "
                          "; " EmptyString (Some <$> reasons)))
        /\ (multierr_Format_joins ->
            err = PolicyRequirementError
                    ("None of the signatures were accepted, reasons: "
                     +:+ String.concat "; " (Error <$> reasons)))).
Proof.
  intros Hsigs Hnone n1 n2.
  destruct (reasons_are_errors pr ctx image (applicable sigs)) as [reasons Hreasons].
  assert (Hrun : (isRunningImageAllowed pr ctx image).1
                 = (false, summary (Some <$> reasons) n1 n2)).
  { unfold isRunningImageAllowed. rewrite Hsigs.
    rewrite admitLoop_none_accepted by done. simpl. by rewrite Hreasons. }
  destruct reasons as [|r1 [|r2 reasons]].
  - destruct (decide (n1 = 0 /\ n2 = 0)) as [[Hn1 Hn2] | Hn].
    + eexists [], _. split; [done|]. split.
      { rewrite Hrun. simpl. by rewrite Hn1, Hn2. }
      split; [done|]. split; [|split; [done | simpl; lia]].
      intros _ [? | ?]; done.
    + exists [], (PolicyRequirementError
                   ("A signature was required, but no signature exists ("
                    +:+ pretty n1 +:+ " non-sigstore signatures, "
                    +:+ pretty n2 +:+ " sigstore non-signature attachments)")).
      split; [done|]. split.
      { rewrite Hrun. simpl.
        destruct (bool_decide (n1 = 0)) eqn:E1; destruct (bool_decide (n2 = 0)) eqn:E2;
          simpl; try reflexivity.
        apply bool_decide_eq_true_1 in E1. apply bool_decide_eq_true_1 in E2.
        by destruct Hn. }
      split; [|split; [done | split; [done | simpl; lia]]].
      intros _ ? ?. by destruct Hn.
  - exists [r1], r1. split; [done|]. split; [by rewrite Hrun|].
    split; [done|]. split; [done|]. split; [by intros ? [= <-] | simpl; lia].
  - exists (r1 :: r2 :: reasons),
      (PolicyRequirementError
         (Error (multierr_Format "None of the signatures were accepted, reasons: "
                   "; " EmptyString (Some <$> r1 :: r2 :: reasons)))).
    split; [done|]. split; [by rewrite Hrun|].
    split; [done|]. split; [done|]. split; [done|].
    intros Hlen. split; [done|]. intros Hformat.
    by rewrite Hformat, append_empty_r.
Qed.

(** C2, as the code has it.  When the trust root cannot be prepared, every
    signature handed to [isSignatureAccepted] is rejected with the
    preparation error, the loop records it as that signature's rejection
    and goes on to the next signature, and the image is refused with the
    summary of those rejections: the error itself when exactly one
    signature applies. *)
Theorem trust_root_error_is_recorded_per_signature (pr : prSigstoreSigned)
    (ctx : GoContext) (image : UnparsedImage) (sigs : list Signature) (e : error) :
  prepareTrustRoot pr = Err e ->
  UntrustedSignatures image ctx = Ok sigs ->
  (forall s, isSignatureAccepted pr ctx image s = reject e [])
  /\ isRunningImageAllowed pr ctx image
     = (false,
        summary (replicate (length (applicable sigs)) (Some e))
          (countNonSigstore sigs) (countNonAttachments sigs),
        [])
  /\ (length (applicable sigs) = 1 -> isRunningImageAllowed pr ctx image = (false, Some e, [])).
Proof.
  intros Hroot Hsigs.
  assert (Hrej : forall s, isSignatureAccepted pr ctx image s = reject e []).
  { intros s. unfold isSignatureAccepted. by rewrite Hroot. }
  assert (Hrun : isRunningImageAllowed pr ctx image
                 = (false,
                    summary (replicate (length (applicable sigs)) (Some e))
                      (countNonSigstore sigs) (countNonAttachments sigs),
                    [])).
  { unfold isRunningImageAllowed. rewrite Hsigs.
    rewrite admitLoop_none_accepted.
    - simpl. f_equal; [f_equal; f_equal|].
      + induction (applicable sigs) as [|s l IH]; [done|].
        rewrite fmap_cons. simpl. rewrite IH. f_equal.
        unfold reasonOf, verdict. by rewrite Hrej.
      + induction (applicable sigs) as [|s l IH]; [done|].
        rewrite fmap_cons. unfold logOf at 1. by rewrite Hrej.
    - apply Forall_forall. intros s _. unfold accepted, verdict. by rewrite Hrej. }
  split; [done|]. split; [done|].
  intros Hone. rewrite Hrun, Hone. reflexivity.
Qed.

End Properties.

(** ** Further properties *)

Section FurtherProperties.
Context `{Collaborators}.

(** *** Trust root of a Fulcio configuration *)

Lemma bind_Ok_inv {A B} (m : result A) (f : A -> result B) (b : B) :
  m ≫= f = Ok b -> exists a, m = Ok a /\ f a = Ok b.
Proof. destruct m as [a|e]; [by exists a | done]. Qed.

(** X1.  A Fulcio trust root, when one is returned, holds the pool built
    from the configured CA bytes, for which [AppendCertsFromPEM] said ok,
    has the configured issuer and subject e-mail unchanged, and passed
    [validate]. *)
Theorem fulcio_prepareTrustRoot_success (f : prSigstoreSignedFulcio) (tr : fulcioTrustRoot) :
  fulcio_prepareTrustRoot f = Ok tr ->
  oidcIssuer tr = OIDCIssuer f
  /\ subjectEmail tr = SubjectEmail f
  /\ fulcio_validate tr = None
  /\ exists caCertBytes,
       loadBytesFromDataOrPath "fulcioCA" (CAData f) (CAPath f) = Ok (Some caCertBytes)
       /\ AppendCertsFromPEM NewCertPool caCertBytes = (caCertificates tr, true).
Proof.
  unfold fulcio_prepareTrustRoot. intros Hrun.
  apply bind_Ok_inv in Hrun as ([caCertBytes|] & Hload & Hrun); [|done].
  destruct (AppendCertsFromPEM NewCertPool caCertBytes) as [certs ok] eqn:Happend.
  destruct ok; [|done]. simpl in Hrun.
  destruct (fulcio_validate _) eqn:Hvalid; [done|].
  injection Hrun as <-. simpl. repeat split; [done|]. by exists caCertBytes.
Qed.

(** X2.  The failures of the Fulcio builder: CA given both inline and by
    path; CA given by neither; a CA file that cannot be read (the read
    error comes back as it is); CA bytes, inline or from the file, from
    which no certificate loads; a descriptor that [validate] refuses (its
    error comes back as it is). *)
Theorem fulcio_prepareTrustRoot_failures (f : prSigstoreSignedFulcio) :
  (forall d, CAData f = Some d -> CAPath f <> EmptyString ->
     is_Err (fulcio_prepareTrustRoot f))
  /\ (CAData f = None -> CAPath f = EmptyString ->
      fulcio_prepareTrustRoot f
      = Err (errorString ("Internal inconsistency: Fulcio specified with neither " +:+ dq
                          +:+ "caPath" +:+ dq +:+ " nor " +:+ dq +:+ "caData" +:+ dq)))
  /\ (forall e, CAData f = None -> CAPath f <> EmptyString ->
        os_ReadFile (CAPath f) = Err e ->
        fulcio_prepareTrustRoot f = Err e)
  /\ (forall d certs,
        loadBytesFromDataOrPath "fulcioCA" (CAData f) (CAPath f) = Ok (Some d) ->
        AppendCertsFromPEM NewCertPool d = (certs, false) ->
        fulcio_prepareTrustRoot f = Err (errorString "error loading Fulcio CA certificates"))
  /\ (forall d certs e,
        loadBytesFromDataOrPath "fulcioCA" (CAData f) (CAPath f) = Ok (Some d) ->
        AppendCertsFromPEM NewCertPool d = (certs, true) ->
        fulcio_validate {| caCertificates := certs; oidcIssuer := OIDCIssuer f;
                           subjectEmail := SubjectEmail f |} = Some e ->
        fulcio_prepareTrustRoot f = Err e).
Proof.
  unfold fulcio_prepareTrustRoot. split; [|split; [|split; [|split]]].
  - intros d Hd Hp. unfold loadBytesFromDataOrPath.
    rewrite Hd, bool_decide_eq_true_2 by done. by eexists.
  - intros Hd Hp. unfold loadBytesFromDataOrPath.
    by rewrite Hd, Hp, bool_decide_eq_false_2 by (by intros []).
  - intros e Hd Hp Hr. unfold loadBytesFromDataOrPath.
    rewrite Hd, bool_decide_eq_true_2 by done. by rewrite Hr.
  - intros d certs Hload Ha. rewrite Hload. simpl. by rewrite Ha.
  - intros d certs e Hload Ha Hv. rewrite Hload. simpl. rewrite Ha. simpl. by rewrite Hv.
Qed.

(** *** Trust root of a policy requirement *)

Lemma wrapping_Ok_inv {A} (prefix : string) (m : result A) (a : A) :
  wrapping prefix m = Ok a -> m = Ok a.
Proof. by destruct m. Qed.

Lemma loadKeyDatas_Ok (datas : list bytes) (pks res : list PublicKey) :
  loadKeyDatas datas pks = Ok res <->
  exists keys, res = pks ++ keys
               /\ Forall2 (fun d k => UnmarshalPEMToPublicKey d = Ok k) datas keys.
Proof.
  revert pks. induction datas as [|d datas IH]; intros pks; simpl.
  - split.
    + intros [= <-]. exists []. by rewrite app_nil_r.
    + intros (keys & -> & ->%Forall2_nil_inv_l). by rewrite app_nil_r.
  - split.
    + intros (pk & Hpk%wrapping_Ok_inv & Hrest)%bind_Ok_inv.
      apply IH in Hrest as (keys & -> & Hkeys).
      exists (pk :: keys). split; [by rewrite <- app_assoc | by constructor].
    + intros (keys & -> & Hkeys).
      apply Forall2_cons_inv_l in Hkeys as (pk & keys' & Hpk & Hkeys & ->).
      rewrite Hpk. simpl. apply IH. exists keys'. split; [by rewrite <- app_assoc | done].
Qed.

Lemma loadKeyPaths_Ok (paths : list string) (pks res : list PublicKey) :
  loadKeyPaths paths pks = Ok res <->
  exists yields, res = pks ++ omap id yields /\ Forall2 pathYields paths yields.
Proof.
  revert pks. induction paths as [|p paths IH]; intros pks; simpl.
  - split.
    + intros [= <-]. exists []. by rewrite app_nil_r.
    + intros (yields & -> & ->%Forall2_nil_inv_l). by rewrite app_nil_r.
  - split.
    + intros ([pem|] & Hread & Hrest)%bind_Ok_inv.
      * apply bind_Ok_inv in Hrest as (pk & Hpk%wrapping_Ok_inv & Hrest).
        apply IH in Hrest as (yields & -> & Hyields).
        exists (Some pk :: yields). split; [by rewrite <- app_assoc|].
        constructor; [by exists pem | done].
      * apply IH in Hrest as (yields & -> & Hyields).
        exists (None :: yields). split; [done | by constructor].
    + intros (yields & -> & Hyields).
      apply Forall2_cons_inv_l in Hyields as (y & yields' & Hy & Hyields & ->).
      destruct y as [pk|]; simpl in Hy.
      * destruct Hy as (pem & -> & Hpk). simpl. rewrite Hpk. simpl.
        apply IH. exists yields'. split; [by rewrite <- app_assoc | done].
      * rewrite Hy. simpl. apply IH. by exists yields'.
Qed.

(** What a successful [prepareTrustRoot] went through, step by step. *)
Lemma prepareTrustRoot_Ok_inv (pr : prSigstoreSigned) (tr : sigstoreSignedTrustRoot) :
  prepareTrustRoot pr = Ok tr ->
  (keyPaths pr = [] \/ keyDatas pr = [])
  /\ (exists pks, loadKeyPaths (keyPaths pr) [] = Ok pks
                  /\ loadKeyDatas (keyDatas pr) pks = Ok (publicKeys tr))
  /\ match Fulcio pr with
     | Some fulcioCfg => exists f, fulcio_prepareTrustRoot fulcioCfg = Ok f
                                   /\ fulcio tr = Some f
     | None => fulcio tr = None
     end
  /\ exists pem,
       loadBytesFromDataOrPath "rekorPublicKey" (RekorPublicKeyData pr) (RekorPublicKeyPath pr)
       = Ok pem
       /\ match pem with
          | Some pem => exists pk pkECDSA,
                          UnmarshalPEMToPublicKey pem = Ok pk
                          /\ asECDSA pk = Some pkECDSA
                          /\ rekorPublicKey tr = Some pkECDSA
          | None => rekorPublicKey tr = None
          end.
Proof.
  unfold prepareTrustRoot. intros Hrun.
  assert (Hexcl : keyPaths pr = [] \/ keyDatas pr = []).
  { destruct (keyPaths pr); [by left|]. destruct (keyDatas pr); [by right | done]. }
  split; [done|].
  destruct (bool_decide (0 < length (keyDatas pr)) && bool_decide (0 < length (keyPaths pr)));
    [done|].
  apply bind_Ok_inv in Hrun as (pks1 & Hpaths & Hrun).
  apply bind_Ok_inv in Hrun as (pks2 & Hdatas & Hrun).
  apply bind_Ok_inv in Hrun as (f & Hfulcio & Hrun).
  apply bind_Ok_inv in Hrun as (pem & Hload & Hrun).
  apply bind_Ok_inv in Hrun as (rekor & Hrekor & Hrun).
  injection Hrun as <-. simpl.
  split; [by exists pks1|]. split.
  - destruct (Fulcio pr) as [fulcioCfg|]; [|by injection Hfulcio as <-].
    apply bind_Ok_inv in Hfulcio as (f' & Hf & [= <-]). by exists f'.
  - exists pem. split; [done|]. destruct pem as [pem|]; [|by injection Hrekor as <-].
    apply bind_Ok_inv in Hrekor as (pk & Hpk%wrapping_Ok_inv & Hrekor).
    destruct (asECDSA pk) as [pkECDSA|] eqn:Hec; [|done].
    injection Hrekor as <-. by exists pk, pkECDSA.
Qed.

Lemma prepareTrustRoot_keys_inv (pr : prSigstoreSigned) (tr : sigstoreSignedTrustRoot) :
  prepareTrustRoot pr = Ok tr ->
  exists (fromPaths : list (option PublicKey)) (fromDatas : list PublicKey),
    publicKeys tr = omap id fromPaths ++ fromDatas
    /\ Forall2 pathYields (keyPaths pr) fromPaths
    /\ Forall2 (fun d k => UnmarshalPEMToPublicKey d = Ok k) (keyDatas pr) fromDatas
    /\ (keyPaths pr = [] \/ keyDatas pr = []).
Proof.
  intros (Hexcl & (pks & Hpaths & Hdatas) & _)%prepareTrustRoot_Ok_inv.
  apply loadKeyPaths_Ok in Hpaths as (fromPaths & -> & Hyields).
  apply loadKeyDatas_Ok in Hdatas as (fromDatas & Hkeys & Hparsed).
  by exists fromPaths, fromDatas.
Qed.

(** X3.  The public keys of a prepared trust root are the keys parsed from
    the configured sources, one per source and in their order: first
    those of the key files (a file whose read returns nothing adds none),
    then those of the inline data; and only one of the two lists can be
    non-empty. *)
Theorem prepareTrustRoot_keys (pr : prSigstoreSigned) (tr : sigstoreSignedTrustRoot) :
  prepareTrustRoot pr = Ok tr ->
  exists (fromPaths : list (option PublicKey)) (fromDatas : list PublicKey),
    publicKeys tr = omap id fromPaths ++ fromDatas
    /\ Forall2 pathYields (keyPaths pr) fromPaths
    /\ Forall2 (fun d k => UnmarshalPEMToPublicKey d = Ok k) (keyDatas pr) fromDatas
    /\ (keyPaths pr = [] \/ keyDatas pr = []).
Proof. apply prepareTrustRoot_keys_inv. Qed.

(** X4.  A configured key that does not parse is fatal, not skipped: no
    trust root is returned when any inline key data fails to parse, and
    the error of the first one that fails comes back wrapped as
    [parsing public key: ...]. *)
Theorem prepareTrustRoot_unparsable_key_data (pr : prSigstoreSigned) :
  (Exists (fun d => is_Err (UnmarshalPEMToPublicKey d)) (keyDatas pr) ->
   is_Err (prepareTrustRoot pr))
  /\ (forall pre d post e,
        keyPaths pr = [] ->
        keyDatas pr = pre ++ d :: post ->
        Forall (fun d' => exists k, UnmarshalPEMToPublicKey d' = Ok k) pre ->
        UnmarshalPEMToPublicKey d = Err e ->
        prepareTrustRoot pr = Err (wrapError "parsing public key: " e)
        /\ Error (wrapError "parsing public key: " e) = "parsing public key: " +:+ Error e).
Proof.
  split.
  - intros Hbad. destruct (prepareTrustRoot pr) as [tr|e] eqn:Hrun; [|by exists e].
    apply prepareTrustRoot_keys_inv in Hrun as (fromPaths & fromDatas & _ & _ & Hparsed & _).
    exfalso. induction Hparsed as [|d k ds ks Hd _ IH]; [by apply Exists_nil in Hbad|].
    apply Exists_cons in Hbad as [[e He] | Hbad]; [congruence | by apply IH].
  - intros pre d post e Hpaths Hdatas Hpre Hd. split; [|done].
    unfold prepareTrustRoot. rewrite Hpaths, Hdatas. simpl.
    rewrite andb_false_r. simpl.
    assert (Hloop : forall pks, loadKeyDatas (pre ++ d :: post) pks
                                = Err (wrapError "parsing public key: " e)).
    { clear Hdatas. induction Hpre as [|d' pre [k Hk] _ IH]; intros pks; simpl.
      - by rewrite Hd.
      - rewrite Hk. simpl. apply IH. }
    by rewrite Hloop.
Qed.

(** X5.  A key file that cannot be read or parsed is fatal too: no trust
    root is returned when any configured key path fails to read; the read
    error of the first such file comes back as it is, and the parse error
    of the first file that does not parse comes back wrapped. *)
Theorem prepareTrustRoot_bad_key_file (pr : prSigstoreSigned) :
  (Exists (fun p => is_Err (os_ReadFile p)) (keyPaths pr) -> is_Err (prepareTrustRoot pr))
  /\ (forall pre p post,
        keyDatas pr = [] ->
        keyPaths pr = pre ++ p :: post ->
        Forall (fun p' => exists y, pathYields p' y) pre ->
        (forall e, os_ReadFile p = Err e -> prepareTrustRoot pr = Err e)
        /\ (forall pem e, os_ReadFile p = Ok (Some pem) ->
              UnmarshalPEMToPublicKey pem = Err e ->
              prepareTrustRoot pr = Err (wrapError "parsing public key: " e))).
Proof.
  split.
  - intros Hbad. destruct (prepareTrustRoot pr) as [tr|e] eqn:Hrun; [|by exists e].
    apply prepareTrustRoot_keys_inv in Hrun as (fromPaths & fromDatas & _ & Hyields & _).
    exfalso. induction Hyields as [|p y ps ys Hy _ IH]; [by apply Exists_nil in Hbad|].
    apply Exists_cons in Hbad as [[e He] | Hbad]; [|by apply IH].
    destruct y as [pk|]; simpl in Hy; [destruct Hy as (pem & Hr & _)|]; congruence.
  - intros pre p post Hdatas Hpaths Hpre.
    assert (Hstart : prepareTrustRoot pr
                     = (pks ← loadKeyPaths (pre ++ p :: post) [];
                        pks ← loadKeyDatas [] pks;
                        f ← match Fulcio pr with
                            | Some fulcioCfg => f ← fulcio_prepareTrustRoot fulcioCfg; Ok (Some f)
                            | None => Ok None
                            end;
                        rekorPublicKeyPEM ← loadBytesFromDataOrPath "rekorPublicKey"
                                              (RekorPublicKeyData pr) (RekorPublicKeyPath pr);
                        rekor ← match rekorPublicKeyPEM with
                                | Some rekorPublicKeyPEM =>
                                    pk ← wrapping "parsing Rekor public key: "
                                           (UnmarshalPEMToPublicKey rekorPublicKeyPEM);
                                    match asECDSA pk with
                                    | Some pkECDSA => Ok (Some pkECDSA)
                                    | None => Err (errorString "Rekor public key is not using ECDSA")
                                    end
                                | None => Ok None
                                end;
                        Ok {| publicKeys := pks; fulcio := f; rekorPublicKey := rekor |})).
    { unfold prepareTrustRoot. by rewrite Hpaths, Hdatas. }
    rewrite Hstart. clear Hstart Hpaths Hdatas.
    assert (Hloop : forall err,
        (forall pks, mbind (M:=result) (fun publicKeyPEM : option bytes =>
             match publicKeyPEM with
             | Some publicKeyPEM =>
                 pk ← wrapping "parsing public key: "
                        (UnmarshalPEMToPublicKey publicKeyPEM);
                 loadKeyPaths post (pks ++ [pk])
             | None => loadKeyPaths post pks
             end) (os_ReadFile p) = Err err) ->
        forall pks, loadKeyPaths (pre ++ p :: post) pks = Err err).
    { intros err Hp. induction Hpre as [|p' pre [y Hy] _ IH]; intros pks; simpl.
      - apply Hp.
      - destruct y as [pk|]; simpl in Hy.
        + destruct Hy as (pem & -> & Hpk). simpl. rewrite Hpk. simpl. apply IH.
        + rewrite Hy. simpl. apply IH. }
    split.
    + intros e Hr. rewrite (Hloop e); [done|]. intros pks. by rewrite Hr.
    + intros pem e Hr Hpk. rewrite (Hloop (wrapError "parsing public key: " e)); [done|].
      intros pks. rewrite Hr. simpl. by rewrite Hpk.
Qed.

(** X6.  A prepared trust root mirrors the configuration: it has a Fulcio
    descriptor exactly when the policy has a Fulcio section, and then the
    one built from it; it has a Rekor key exactly when a Rekor key is
    configured, and then the ECDSA key parsed from the configured bytes. *)
Theorem prepareTrustRoot_mirrors_configuration (pr : prSigstoreSigned)
    (tr : sigstoreSignedTrustRoot) :
  prepareTrustRoot pr = Ok tr ->
  (fulcio tr = None <-> Fulcio pr = None)
  /\ (forall f, fulcio tr = Some f ->
        exists fulcioCfg, Fulcio pr = Some fulcioCfg
                          /\ fulcio_prepareTrustRoot fulcioCfg = Ok f)
  /\ (rekorPublicKey tr = None <->
      loadBytesFromDataOrPath "rekorPublicKey" (RekorPublicKeyData pr) (RekorPublicKeyPath pr)
      = Ok None)
  /\ (forall pkECDSA, rekorPublicKey tr = Some pkECDSA ->
        exists pem pk,
          loadBytesFromDataOrPath "rekorPublicKey"
            (RekorPublicKeyData pr) (RekorPublicKeyPath pr) = Ok (Some pem)
          /\ UnmarshalPEMToPublicKey pem = Ok pk
          /\ asECDSA pk = Some pkECDSA).
Proof.
  intros (_ & _ & Hfulcio & pem & Hload & Hrekor)%prepareTrustRoot_Ok_inv.
  split; [|split; [|split]].
  - destruct (Fulcio pr) as [fulcioCfg|]; [|done].
    destruct Hfulcio as (f & _ & ->). done.
  - intros f Hf. destruct (Fulcio pr) as [fulcioCfg|]; [|congruence].
    destruct Hfulcio as (f' & Hprep & Hf'). exists fulcioCfg. split; [done|]. congruence.
  - rewrite Hload. destruct pem as [pem|]; [|done].
    destruct Hrekor as (pk & pkECDSA & _ & _ & ->). done.
  - intros pkECDSA Hk. rewrite Hload. destruct pem as [pem|]; [|congruence].
    destruct Hrekor as (pk & pkECDSA' & Hpk & Hec & Hk'). exists pem, pk.
    split; [done|]. split; [done|]. congruence.
Qed.

(** X7.  No trust root comes out of a policy whose Rekor key is given both
    inline and by path, or does not parse, or parses to a key that is not
    an ECDSA key; nor of one whose Fulcio section cannot be prepared. *)
Theorem prepareTrustRoot_bad_rekor_or_fulcio (pr : prSigstoreSigned) :
  (forall d, RekorPublicKeyData pr = Some d -> RekorPublicKeyPath pr <> EmptyString ->
     is_Err (prepareTrustRoot pr))
  /\ (forall pem, 
        loadBytesFromDataOrPath "rekorPublicKey"
          (RekorPublicKeyData pr) (RekorPublicKeyPath pr) = Ok (Some pem) ->
        is_Err (UnmarshalPEMToPublicKey pem) ->
        is_Err (prepareTrustRoot pr))
  /\ (forall pem pk,
        loadBytesFromDataOrPath "rekorPublicKey"
          (RekorPublicKeyData pr) (RekorPublicKeyPath pr) = Ok (Some pem) ->
        UnmarshalPEMToPublicKey pem = Ok pk ->
        asECDSA pk = None ->
        is_Err (prepareTrustRoot pr))
  /\ (forall fulcioCfg, Fulcio pr = Some fulcioCfg ->
        is_Err (fulcio_prepareTrustRoot fulcioCfg) ->
        is_Err (prepareTrustRoot pr)).
Proof.
  assert (Hinv : forall P : Prop,
             (forall tr, prepareTrustRoot pr = Ok tr -> P -> False) ->
             P -> is_Err (prepareTrustRoot pr)).
  { intros P Hno HP. destruct (prepareTrustRoot pr) as [tr|e] eqn:Hrun; [|by exists e].
    destruct (Hno tr eq_refl HP). }
  split; [|split; [|split]].
  - intros d Hd Hp. apply (Hinv True); [|done].
    intros tr (_ & _ & _ & pem & Hload & _)%prepareTrustRoot_Ok_inv _.
    unfold loadBytesFromDataOrPath in Hload.
    rewrite Hd, bool_decide_eq_true_2 in Hload by done. done.
  - intros pem Hload [e He]. apply (Hinv True); [|done].
    intros tr (_ & _ & _ & pem' & Hload' & Hrekor)%prepareTrustRoot_Ok_inv _.
    rewrite Hload in Hload'. injection Hload' as <-.
    destruct Hrekor as (pk & _ & Hpk & _). congruence.
  - intros pem pk Hload Hpk Hec. apply (Hinv True); [|done].
    intros tr (_ & _ & _ & pem' & Hload' & Hrekor)%prepareTrustRoot_Ok_inv _.
    rewrite Hload in Hload'. injection Hload' as <-.
    destruct Hrekor as (pk' & pkECDSA & Hpk' & Hec' & _). congruence.
  - intros fulcioCfg Hcfg [e He]. apply (Hinv True); [|done].
    intros tr (_ & _ & Hfulcio & _)%prepareTrustRoot_Ok_inv _.
    rewrite Hcfg in Hfulcio. destruct Hfulcio as (f & Hf & _). congruence.
Qed.

Lemma prepareTrustRoot_ext (pr pr' : prSigstoreSigned) :
  keyPaths pr = keyPaths pr' ->
  keyDatas pr = keyDatas pr' ->
  Fulcio pr = Fulcio pr' ->
  RekorPublicKeyData pr = RekorPublicKeyData pr' ->
  RekorPublicKeyPath pr = RekorPublicKeyPath pr' ->
  prepareTrustRoot pr = prepareTrustRoot pr'.
Proof. unfold prepareTrustRoot. by intros -> -> -> -> ->. Qed.

(** X8.  The singular key source wins over the plural one: with [KeyPath]
    set, [KeyPaths] has no effect on the trust root; with a non-empty
    [KeyData], [KeyDatas] has none; and an empty, non-nil [KeyData] counts
    as no [KeyData] at all. *)
Theorem prepareTrustRoot_singular_takes_precedence (pr : prSigstoreSigned) :
  (KeyPath pr <> EmptyString ->
   forall paths, prepareTrustRoot (withKeyPaths pr paths) = prepareTrustRoot pr)
  /\ (forall d, KeyData pr = Some d -> d <> [] ->
        forall datas, prepareTrustRoot (withKeyDatas pr datas) = prepareTrustRoot pr)
  /\ (KeyData pr = Some [] ->
      prepareTrustRoot (withKeyData pr None) = prepareTrustRoot pr).
Proof.
  split; [|split].
  - intros Hp paths. apply prepareTrustRoot_ext; try done.
    unfold keyPaths. simpl. by rewrite !bool_decide_eq_true_2.
  - intros d Hd Hne datas. apply prepareTrustRoot_ext; try done.
    unfold keyDatas. simpl. rewrite Hd.
    rewrite bool_decide_eq_true_2; [done|]. destruct d; [done | simpl; lia].
  - intros Hd. apply prepareTrustRoot_ext; try done.
    unfold keyDatas. simpl. by rewrite Hd.
Qed.

(** *** Acceptance of one signature, further *)

Lemma verifyPayload_accepted_inv (pr : prSigstoreSigned) (ctx : GoContext)
    (image : UnparsedImage) (keys : list PublicKey) (payload : bytes) (b64 : string)
    (log : list LogEntry) :
  sar_result (verifyPayload pr ctx image keys payload b64 log).1.1 = sarAccepted ->
  keys <> []
  /\ exists claims,
       VerifySigstorePayload keys payload b64 (acceptanceRules pr ctx image)
       = (Some claims, sar_key (verifyPayload pr ctx image keys payload b64 log).1.1, None).
Proof.
  unfold verifyPayload. case_bool_decide as Hlen; [done|].
  destruct (VerifySigstorePayload _ _ _ _) as [[[claims|] key] [err|]]; try done.
  intros _. split; [by intros -> | by exists claims].
Qed.

Lemma has_keys_inv (tr : sigstoreSignedTrustRoot) :
  (bool_decide (0 < length (publicKeys tr)) = true -> publicKeys tr <> [])
  /\ (bool_decide (0 < length (publicKeys tr)) = false -> publicKeys tr = []).
Proof.
  split.
  - intros Hlen%bool_decide_eq_true_1 Hnil. rewrite Hnil in Hlen. simpl in Hlen. lia.
  - intros Hlen%bool_decide_eq_false_1. destruct (publicKeys tr); [done|].
    simpl in Hlen. lia.
Qed.

Lemma isSignatureAccepted_accepted_inv (pr : prSigstoreSigned) (ctx : GoContext)
    (image : UnparsedImage) (sig : Sigstore) :
  sar_result (isSignatureAccepted pr ctx image sig).1.1 = sarAccepted ->
  exists tr b64 keys claims,
    prepareTrustRoot pr = Ok tr
    /\ UntrustedAnnotations sig !! SigstoreSignatureAnnotationKey = Some b64
    /\ candidateKeys tr sig b64 keys
    /\ keys <> []
    /\ VerifySigstorePayload keys (UntrustedPayload sig) b64 (acceptanceRules pr ctx image)
       = (Some claims, sar_key (isSignatureAccepted pr ctx image sig).1.1, None).
Proof.
  unfold isSignatureAccepted.
  destruct (prepareTrustRoot pr) as [tr|e] eqn:Hroot; [|done].
  unfold isSignatureAccepted_with.
  destruct (UntrustedAnnotations sig !! SigstoreSignatureAnnotationKey) as [b64|] eqn:Hsig;
    [|done].
  destruct (has_keys_inv tr) as [Hsome Hnone].
  destruct (bool_decide (0 < length (publicKeys tr))) eqn:Hlen;
    destruct (fulcio tr) as [f|] eqn:Hfulcio; try done;
    destruct (rekorPublicKey tr) as [rekor|] eqn:Hrekor; try done.
  - destruct (UntrustedAnnotations sig !! SigstoreSETAnnotationKey) as [set|] eqn:Hset;
      [|done].
    rewrite rekorFilter_spec. simpl.
    destruct (bool_decide (length _ = 0)) eqn:Hsurv; [by simpl|].
    intros [Hne [claims Hv]]%verifyPayload_accepted_inv.
    eexists tr, b64, _, claims. split; [done|]. split; [done|]. split; [|done].
    right; left. split; [split; auto|]. by exists rekor, set.
  - intros [Hne [claims Hv]]%verifyPayload_accepted_inv.
    eexists tr, b64, _, claims. split; [done|]. split; [done|]. split; [|done].
    left. split; [split; auto | done].
  - destruct (UntrustedAnnotations sig !! SigstoreSETAnnotationKey) as [set|] eqn:Hset;
      [|done].
    destruct (UntrustedAnnotations sig !! SigstoreCertificateAnnotationKey) as [cert|] eqn:Hcert;
      [|done].
    destruct (verifyRekorFulcio _ _ _ _ _ _ _) as [pk|e] eqn:Hrf; [|done].
    intros [Hne [claims Hv]]%verifyPayload_accepted_inv.
    eexists tr, b64, _, claims. split; [done|]. split; [done|]. split; [|done].
    right; right. split; [auto|]. by exists rekor, f, set, cert, pk.
Qed.

(** X9.  Acceptance is sound.  A signature is accepted only if the trust
    root could be prepared, the signature annotation is present, and the
    payload verifier succeeded, returning the reported key, on a non-empty
    list of candidate keys drawn from the trust root: all configured keys
    when no Rekor key is configured; the configured keys that pass the
    Rekor check otherwise; or, in the Fulcio branch, the one key that
    [verifyRekorFulcio] returned. *)
Theorem acceptance_is_sound (pr : prSigstoreSigned) (ctx : GoContext)
    (image : UnparsedImage) (sig : Sigstore) :
  sar_result (isSignatureAccepted pr ctx image sig).1.1 = sarAccepted ->
  exists tr b64 keys claims,
    prepareTrustRoot pr = Ok tr
    /\ UntrustedAnnotations sig !! SigstoreSignatureAnnotationKey = Some b64
    /\ candidateKeys tr sig b64 keys
    /\ keys <> []
    /\ VerifySigstorePayload keys (UntrustedPayload sig) b64 (acceptanceRules pr ctx image)
       = (Some claims, sar_key (isSignatureAccepted pr ctx image sig).1.1, None).
Proof. apply isSignatureAccepted_accepted_inv. Qed.

Lemma candidateKeys_run (pr : prSigstoreSigned) (ctx : GoContext) (image : UnparsedImage)
    (sig : Sigstore) (tr : sigstoreSignedTrustRoot) (b64 : string) (keys : list PublicKey) :
  prepareTrustRoot pr = Ok tr ->
  UntrustedAnnotations sig !! SigstoreSignatureAnnotationKey = Some b64 ->
  candidateKeys tr sig b64 keys ->
  keys <> [] ->
  exists log, isSignatureAccepted pr ctx image sig
              = verifyPayload pr ctx image keys (UntrustedPayload sig) b64 log.
Proof.
  intros Hroot Hsig Hcand Hne.
  rewrite (isSignatureAccepted_prepared _ _ _ _ _ Hroot).
  unfold isSignatureAccepted_with. rewrite Hsig. simpl.
  destruct Hcand as [([Hkeys Hfulcio] & Hrekor & ->)
                    | [([Hkeys Hfulcio] & rekor & set & Hrekor & Hset & ->)
                      | (Hkeys & rekor & f & set & cert & pk & Hrekor & Hfulcio & Hset
                         & Hcert & Hrf & ->)]].
  - rewrite has_keys_true, Hfulcio, Hrekor by done. by eexists.
  - rewrite has_keys_true, Hfulcio, Hrekor, Hset by done.
    rewrite rekorFilter_spec. simpl.
    rewrite bool_decide_eq_false_2; [by eexists|].
    by intros Hlen%length_zero_iff_nil.
  - rewrite has_keys_false, Hfulcio, Hrekor, Hset, Hcert by done.
    rewrite Hrf. by eexists.
Qed.

(** X10.  Once candidate keys exist, the payload verifier decides: its
    error is the rejection, as it is; a success without claims is the
    internal error; a success with claims is the acceptance, with the key
    it reported. *)
Theorem payload_verifier_decides (pr : prSigstoreSigned) (ctx : GoContext)
    (image : UnparsedImage) (sig : Sigstore) (tr : sigstoreSignedTrustRoot)
    (b64 : string) (keys : list PublicKey) :
  prepareTrustRoot pr = Ok tr ->
  UntrustedAnnotations sig !! SigstoreSignatureAnnotationKey = Some b64 ->
  candidateKeys tr sig b64 keys ->
  keys <> [] ->
  let verified :=
    VerifySigstorePayload keys (UntrustedPayload sig) b64 (acceptanceRules pr ctx image) in
  let run := (isSignatureAccepted pr ctx image sig).1 in
  (forall claims key e, verified = (claims, key, Some e) -> run = (rejectedRes, Some e))
  /\ (forall key, verified = (None, key, None) ->
        run = (rejectedRes,
               Some (errorString
                 "internal error: VerifySigstorePayload succeeded but returned no data")))
  /\ (forall claims key, verified = (Some claims, key, None) ->
        run = ({| sar_result := sarAccepted; sar_key := key |}, None)).
Proof.
  intros Hroot Hsig Hcand Hne verified run. subst verified run.
  destruct (candidateKeys_run pr ctx image sig tr b64 keys Hroot Hsig Hcand Hne)
    as [log ->].
  unfold verifyPayload. rewrite bool_decide_eq_false_2 by (by intros Hlen%length_zero_iff_nil).
  split; [|split].
  - intros claims key e ->. done.
  - intros key ->. done.
  - intros claims key ->. done.
Qed.

(** X11.  With direct keys and no Rekor key, only the payload and the
    signature annotation of a signature count: the SET, the certificate,
    any other annotation and the MIME type have no effect, and nothing is
    logged. *)
Theorem direct_keys_ignore_other_annotations (pr : prSigstoreSigned) (ctx : GoContext)
    (image : UnparsedImage) (sig sig' : Sigstore) (tr : sigstoreSignedTrustRoot) :
  prepareTrustRoot pr = Ok tr ->
  directKeys tr ->
  rekorPublicKey tr = None ->
  UntrustedPayload sig = UntrustedPayload sig' ->
  UntrustedAnnotations sig !! SigstoreSignatureAnnotationKey
  = UntrustedAnnotations sig' !! SigstoreSignatureAnnotationKey ->
  isSignatureAccepted pr ctx image sig = isSignatureAccepted pr ctx image sig'
  /\ (isSignatureAccepted pr ctx image sig).2 = [].
Proof.
  intros Hroot [Hkeys Hfulcio] Hrekor Hpayload Hsig.
  rewrite !(isSignatureAccepted_prepared _ _ _ _ _ Hroot).
  unfold isSignatureAccepted_with. rewrite <- Hsig, <- Hpayload.
  destruct (UntrustedAnnotations sig !! SigstoreSignatureAnnotationKey) as [b64|]; [|done].
  simpl. rewrite has_keys_true, Hfulcio, Hrekor by done. split; [done|].
  unfold verifyPayload. case_bool_decide; [done|].
  by destruct (VerifySigstorePayload _ _ _ _) as [[[claims|] key] [err|]].
Qed.

(** X12.  In the Fulcio branch a failure of [verifyRekorFulcio] ends the
    matter: the signature is rejected with that error, whatever the payload
    verifier would say, and nothing is logged. *)
Theorem fulcio_failure_is_terminal (pr : prSigstoreSigned) (ctx : GoContext)
    (image : UnparsedImage) (sig : Sigstore) (tr : sigstoreSignedTrustRoot)
    (rekor : ECDSAPublicKey) (f : fulcioTrustRoot) (b64 untrustedSET untrustedCert : string)
    (e : error) :
  prepareTrustRoot pr = Ok tr ->
  publicKeys tr = [] ->
  fulcio tr = Some f ->
  rekorPublicKey tr = Some rekor ->
  UntrustedAnnotations sig !! SigstoreSignatureAnnotationKey = Some b64 ->
  UntrustedAnnotations sig !! SigstoreSETAnnotationKey = Some untrustedSET ->
  UntrustedAnnotations sig !! SigstoreCertificateAnnotationKey = Some untrustedCert ->
  verifyRekorFulcio rekor f (bytes_of_string untrustedSET) (bytes_of_string untrustedCert)
    (bytes_of_string <$> UntrustedAnnotations sig
                           !! SigstoreIntermediateCertificateChainAnnotationKey)
    b64 (UntrustedPayload sig) = Err e ->
  isSignatureAccepted pr ctx image sig = reject e [].
Proof.
  intros Hroot Hkeys Hfulcio Hrekor Hsig Hset Hcert Hrf.
  rewrite (isSignatureAccepted_prepared _ _ _ _ _ Hroot).
  unfold isSignatureAccepted_with. rewrite Hsig. simpl.
  rewrite has_keys_false, Hfulcio, Hrekor, Hset, Hcert by done. by rewrite Hrf.
Qed.

Lemma verifyPayload_log (pr : prSigstoreSigned) (ctx : GoContext) (image : UnparsedImage)
    (keys : list PublicKey) (payload : bytes) (b64 : string) (log : list LogEntry) :
  (verifyPayload pr ctx image keys payload b64 log).2 = log.
Proof.
  unfold verifyPayload. case_bool_decide; [done|].
  by destruct (VerifySigstorePayload _ _ _ _) as [[[claims|] key] [err|]].
Qed.

(** X13.  Log lines come from the Rekor check of direct keys only, one per
    dropped key: whenever [isSignatureAccepted] logs, the trust root was
    prepared, has direct keys and a Rekor key, the signature carries the
    signature and SET annotations, and the log is the list of lines of the
    keys that failed the check, so no longer than the key list. *)
Theorem log_comes_from_rekor_filter (pr : prSigstoreSigned) (ctx : GoContext)
    (image : UnparsedImage) (sig : Sigstore) :
  (isSignatureAccepted pr ctx image sig).2 <> [] ->
  exists tr rekor b64 untrustedSET,
    prepareTrustRoot pr = Ok tr
    /\ directKeys tr
    /\ rekorPublicKey tr = Some rekor
    /\ UntrustedAnnotations sig !! SigstoreSignatureAnnotationKey = Some b64
    /\ UntrustedAnnotations sig !! SigstoreSETAnnotationKey = Some untrustedSET
    /\ (isSignatureAccepted pr ctx image sig).2
       = concat (rekorKeyLog rekor (bytes_of_string untrustedSET) b64
                   (UntrustedPayload sig) <$> publicKeys tr)
    /\ length (isSignatureAccepted pr ctx image sig).2 <= length (publicKeys tr).
Proof.
  unfold isSignatureAccepted.
  destruct (prepareTrustRoot pr) as [tr|e] eqn:Hroot; [|done].
  unfold isSignatureAccepted_with.
  destruct (UntrustedAnnotations sig !! SigstoreSignatureAnnotationKey) as [b64|] eqn:Hsig;
    [|done].
  destruct (has_keys_inv tr) as [Hsome Hnone].
  destruct (bool_decide (0 < length (publicKeys tr))) eqn:Hlen;
    destruct (fulcio tr) as [f|] eqn:Hfulcio; try done;
    destruct (rekorPublicKey tr) as [rekor|] eqn:Hrekor; try done.
  - destruct (UntrustedAnnotations sig !! SigstoreSETAnnotationKey) as [set|] eqn:Hset;
      [|done].
    rewrite rekorFilter_spec. intros _.
    exists tr, rekor, b64, set.
    split; [done|]. split; [split; auto|]. split; [done|]. split; [done|]. split; [done|].
    assert (Hrun : forall keys log,
               (if bool_decide (length keys = 0)
                then reject (errorString "No public key verified against the RekorSET") log
                else verifyPayload pr ctx image keys (UntrustedPayload sig) b64 log).2 = log).
    { intros keys log. destruct (bool_decide (length keys = 0));
        [reflexivity | apply verifyPayload_log]. }
    split; [apply Hrun|].
    assert (Hle : length (concat (rekorKeyLog rekor (bytes_of_string set) b64
                                    (UntrustedPayload sig) <$> publicKeys tr))
                  <= length (publicKeys tr)).
    { pose proof (rekorKeyLog_length rekor (bytes_of_string set) b64 (UntrustedPayload sig)
                    (publicKeys tr)). lia. }
    exact (eq_ind_r (fun l => length l <= length (publicKeys tr)) Hle (Hrun _ _)).
  - rewrite verifyPayload_log. done.
  - destruct (UntrustedAnnotations sig !! SigstoreSETAnnotationKey) as [set|]; [|done].
    destruct (UntrustedAnnotations sig !! SigstoreCertificateAnnotationKey) as [cert|];
      [|done].
    destruct (verifyRekorFulcio _ _ _ _ _ _ _) as [pk|e]; [|done].
    rewrite verifyPayload_log. done.
Qed.

(** X14.  The two rules handed to the payload verifier.  The identity
    rule passes exactly when the policy's [matchesDockerReference] holds
    for the signed reference, and fails with a [PolicyRequirementError]
    quoting it.  The digest rule passes exactly when the manifest can be
    fetched and matches the signed digest; a failure to fetch or to
    compare comes back as it is, and a mismatch is a
    [PolicyRequirementError] naming the digest. *)
Theorem acceptanceRules_contract (pr : prSigstoreSigned) (ctx : GoContext)
    (image : UnparsedImage) :
  let rules := acceptanceRules pr ctx image in
  (forall ref,
     (ValidateSignedDockerReference rules ref = None
      <-> matchesDockerReference (SignedIdentity pr) image ref = true)
     /\ (matchesDockerReference (SignedIdentity pr) image ref = false ->
         ValidateSignedDockerReference rules ref
         = Some (PolicyRequirementError
                   ("Signature for identity " +:+ fmt_q ref +:+ " is not accepted"))))
  /\ (forall digest,
        (ValidateSignedDockerManifestDigest rules digest = None
         <-> exists m, image_Manifest image ctx = Ok m /\ MatchesDigest m digest = Ok true)
        /\ (forall e, image_Manifest image ctx = Err e ->
              ValidateSignedDockerManifestDigest rules digest = Some e)
        /\ (forall m e, image_Manifest image ctx = Ok m -> MatchesDigest m digest = Err e ->
              ValidateSignedDockerManifestDigest rules digest = Some e)
        /\ (forall m, image_Manifest image ctx = Ok m -> MatchesDigest m digest = Ok false ->
              ValidateSignedDockerManifestDigest rules digest
              = Some (PolicyRequirementError
                        ("Signature for digest " +:+ digest +:+ " does not match")))).
Proof.
  simpl. split.
  - intros ref. destruct (matchesDockerReference _ _ _); simpl; split; try done.
  - intros digest. split; [|split; [|split]].
    + destruct (image_Manifest image ctx) as [m|e]; [|split; [done | by intros (? & [=] & _)]].
      destruct (MatchesDigest m digest) as [[|]|e] eqn:Hm; simpl; split; try done.
      * intros _. by exists m.
      * intros (m' & [= <-] & Hm'). congruence.
      * intros (m' & [= <-] & Hm'). congruence.
    + by intros e ->.
    + by intros m e -> ->.
    + by intros m -> ->.
Qed.

(** *** Admission of an image, further *)

Lemma admitLoop_decision (pr : prSigstoreSigned) (ctx : GoContext) (image : UnparsedImage)
    (sigs : list Signature) :
  forall rejections n1 n2 log,
    (admitLoop pr ctx image sigs rejections n1 n2 log).1.1
    = existsb (accepted pr ctx image) (applicable sigs).
Proof.
  induction sigs as [|[s|o] rest IH]; intros rejections n1 n2 log; simpl; [done| |by apply IH].
  case_bool_decide; [by apply IH|]. simpl.
  unfold accepted at 1, verdict.
  destruct (isSignatureAccepted pr ctx image s) as [[res err] l]. simpl.
  destruct (sar_result res); [done | by apply IH | by apply IH].
Qed.

Lemma applicable_spec (sigs : list Signature) (s : Sigstore) :
  s ∈ applicable sigs
  <-> SigstoreSig s ∈ sigs /\ UntrustedMIMEType s = SigstoreSignatureMIMEType.
Proof.
  induction sigs as [|[s'|o] rest IH]; simpl.
  - split; [by intros ?%elem_of_nil | by intros [?%elem_of_nil _]].
  - case_bool_decide as Hmime.
    + rewrite IH, elem_of_cons. split; [by intros [? ?]; auto|].
      intros [[[= ->] | ?] ?]; [done | auto].
    + rewrite !elem_of_cons, IH. split.
      * intros [-> | [? ?]]; auto.
      * intros [[[= ->] | ?] ?]; auto.
  - rewrite IH, elem_of_cons. split; [by intros [? ?]; auto|].
    intros [[[=] | ?] ?]. auto.
Qed.

Lemma admits_spec (pr : prSigstoreSigned) (ctx : GoContext) (image : UnparsedImage)
    (sigs : list Signature) :
  admits pr ctx image sigs = true
  <-> exists s, s ∈ sigs /\ acceptedSignature pr ctx image s.
Proof.
  unfold admits. rewrite admitLoop_decision, existsb_exists. split.
  - intros (s & Hin & Hacc). apply list_elem_of_In, applicable_spec in Hin as [Hin Hmime].
    exists (SigstoreSig s). split; [done|]. exists s. split; [done|]. split; [done|].
    unfold accepted in Hacc. by destruct (verdict pr ctx image s).
  - intros (s' & Hin & s & -> & Hmime & Hacc). exists s. split.
    + apply list_elem_of_In, applicable_spec. done.
    + unfold accepted. by rewrite Hacc.
Qed.

Lemma admitLoop_admits_without_error (pr : prSigstoreSigned) (ctx : GoContext)
    (image : UnparsedImage) (sigs : list Signature) :
  forall rejections n1 n2 log,
    (admitLoop pr ctx image sigs rejections n1 n2 log).1.1 = true ->
    (admitLoop pr ctx image sigs rejections n1 n2 log).1.2 = None.
Proof.
  induction sigs as [|[s|o] rest IH]; intros rejections n1 n2 log; simpl;
    [done| |by apply IH].
  case_bool_decide; [by apply IH|].
  destruct (isSignatureAccepted pr ctx image s) as [[res err] l]. simpl.
  destruct (sar_result res); [done | by apply IH | by apply IH].
Qed.

(** X15.  An image is admitted exactly when one of its signatures is a
    sigstore signature of the signature MIME type that
    [isSignatureAccepted] accepts; and then no error is returned. *)
Theorem admitted_iff_some_signature_accepted (pr : prSigstoreSigned) (ctx : GoContext)
    (image : UnparsedImage) (sigs : list Signature) :
  UntrustedSignatures image ctx = Ok sigs ->
  ((isRunningImageAllowed pr ctx image).1.1 = true
   <-> exists s, s ∈ sigs /\ acceptedSignature pr ctx image s)
  /\ ((isRunningImageAllowed pr ctx image).1.1 = true ->
      (isRunningImageAllowed pr ctx image).1.2 = None).
Proof.
  intros Hsigs. split.
  - rewrite <- admits_spec. unfold admits, isRunningImageAllowed. by rewrite Hsigs.
  - unfold isRunningImageAllowed. rewrite Hsigs. apply admitLoop_admits_without_error.
Qed.

Lemma summary_is_error (rejections : list (option error)) (n1 n2 : nat) :
  Forall is_Some rejections -> is_Some (summary rejections n1 n2).
Proof.
  intros Hall. unfold summary.
  destruct rejections as [|r [|r' rest]].
  - by destruct (bool_decide (n1 = 0) && bool_decide (n2 = 0)).
  - by apply Forall_cons in Hall as [? _].
  - done.
Qed.

Lemma admitLoop_result_invariant (pr : prSigstoreSigned) (ctx : GoContext)
    (image : UnparsedImage) (sigs : list Signature) :
  forall rejections n1 n2 log,
    Forall is_Some rejections ->
    (admitLoop pr ctx image sigs rejections n1 n2 log).1 = (true, None)
    \/ ((admitLoop pr ctx image sigs rejections n1 n2 log).1.1 = false
        /\ is_Some (admitLoop pr ctx image sigs rejections n1 n2 log).1.2).
Proof.
  induction sigs as [|[s|o] rest IH]; intros rejections n1 n2 log Hall; simpl.
  - right. split; [done | by apply summary_is_error].
  - case_bool_decide; [by apply IH|].
    destruct (isSignatureAccepted_cases pr ctx image s)
      as [(keys & b64 & claims & key & l & _ & ->) | (e & l & ->)]; simpl.
    + by left.
    + apply IH. apply Forall_app. split; [done|]. by repeat constructor.
  - by apply IH.
Qed.

(** X16.  [isRunningImageAllowed] returns either [(true, nil)] or [false]
    with a non-nil error: a refusal always says why, and an error never
    comes with an admission.  When the signatures cannot be retrieved, the
    image is refused with the retrieval error as it is. *)
Theorem isRunningImageAllowed_result_invariant (pr : prSigstoreSigned) (ctx : GoContext)
    (image : UnparsedImage) :
  ((isRunningImageAllowed pr ctx image).1 = (true, None)
   \/ ((isRunningImageAllowed pr ctx image).1.1 = false
       /\ exists e, (isRunningImageAllowed pr ctx image).1.2 = Some e))
  /\ (forall e, UntrustedSignatures image ctx = Err e ->
        isRunningImageAllowed pr ctx image = (false, Some e, [])).
Proof.
  unfold isRunningImageAllowed. split.
  - destruct (UntrustedSignatures image ctx) as [sigs|e]; [|right; split; [done | by exists e]].
    destruct (admitLoop_result_invariant pr ctx image sigs [] 0 0 []) as [Hok | [Hno Herr]];
      [done | by left | right].
    split; [done|]. by destruct Herr as [e He]; exists e.
  - by intros e ->.
Qed.

(** X17.  The decision depends on which signatures are attached, not on
    their order or number: a list of signatures that contains all the
    signatures of an admitted list is admitted too, and two lists that are
    permutations of each other get the same decision. *)
Theorem admission_is_monotone (pr : prSigstoreSigned) (ctx : GoContext)
    (image : UnparsedImage) (sigs sigs' : list Signature) :
  ((forall s, s ∈ sigs -> s ∈ sigs') ->
   admits pr ctx image sigs = true -> admits pr ctx image sigs' = true)
  /\ (sigs ≡ₚ sigs' -> admits pr ctx image sigs = admits pr ctx image sigs').
Proof.
  assert (Hmono : forall l l' : list Signature,
             (forall s, s ∈ l -> s ∈ l') ->
             admits pr ctx image l = true -> admits pr ctx image l' = true).
  { intros l l' Hsub (s & Hin & Hacc)%admits_spec. apply admits_spec.
    exists s. split; [by apply Hsub | done]. }
  split; [apply Hmono|].
  intros Hperm.
  destruct (admits pr ctx image sigs) eqn:Ha; destruct (admits pr ctx image sigs') eqn:Hb;
    try done.
  - rewrite (Hmono sigs sigs') in Hb; [done | | done].
    intros s. by rewrite Hperm.
  - rewrite (Hmono sigs' sigs) in Ha; [done | | done].
    intros s. by rewrite Hperm.
Qed.

(** X18.  No admission without a usable trust root: when an image is
    admitted, the trust root was prepared and has exactly one mechanism,
    direct keys or a Fulcio descriptor together with a Rekor key; so a
    policy without any key source and without a Fulcio section admits
    nothing. *)
Theorem admission_requires_consistent_trust_root (pr : prSigstoreSigned) (ctx : GoContext)
    (image : UnparsedImage) :
  (isRunningImageAllowed pr ctx image).1.1 = true ->
  (exists tr, prepareTrustRoot pr = Ok tr /\ (directKeys tr \/ certificateAuthority tr))
  /\ ~ (keyPaths pr = [] /\ keyDatas pr = [] /\ Fulcio pr = None).
Proof.
  unfold isRunningImageAllowed.
  destruct (UntrustedSignatures image ctx) as [sigs|e]; [|done].
  intros (s' & _ & s & _ & _ & Hacc)%admits_spec.
  destruct (isSignatureAccepted_accepted_inv pr ctx image s Hacc)
    as (tr & b64 & keys & claims & Hroot & _ & Hcand & _).
  assert (Hshape : directKeys tr \/ certificateAuthority tr).
  { destruct Hcand as [(Hd & _) | [(Hd & _)
                      | (Hkeys & rekor & f & set & cert & pk & Hrekor & Hfulcio & _)]];
      [by left | by left | right].
    split; [done|]. split; congruence. }
  split; [by exists tr|].
  intros (Hpaths & Hdatas & Hnofulcio).
  apply prepareTrustRoot_Ok_inv in Hroot as (_ & (pks & Hp & Hd) & Hfulcio & _).
  rewrite Hpaths in Hp. rewrite Hdatas in Hd. rewrite Hnofulcio in Hfulcio.
  simpl in Hp, Hd. injection Hp as <-. injection Hd as Hkeys.
  destruct Hshape as [[Hne _] | (_ & Hf & _)]; congruence.
Qed.

End FurtherProperties.

(** ** The properties on the concrete instance *)

Import Fixture.

Lemma fixture_format_joins : multierr_Format_joins.
Proof.
  intros first middle last errs _. simpl. do 3 f_equal.
  induction errs as [|e errs IH]; [done|]. rewrite !fmap_cons. simpl. by rewrite IH.
Qed.

(** The model at work: a signature by a trusted key is accepted; with a
    Rekor key, [bob] is dropped, [alice] survives and verifies; the Fulcio
    branch asks for the certificate. *)
Example alice_accepted :
  isSignatureAccepted alicePolicy tt 0 sigAlice
  = ({| sar_result := sarAccepted; sar_key := Some "alice" |}, None, []).
Proof. reflexivity. Qed.

Example alice_survives_rekor_check :
  isSignatureAccepted loggedPolicy tt 0 sigAliceLogged
  = ({| sar_result := sarAccepted; sar_key := Some "alice" |}, None,
     [Errorf "re-marshaling public key to PEM: %q" (errorString "unsupported key type")]).
Proof. reflexivity. Qed.

Example mixed_image_admitted :
  isRunningImageAllowed alicePolicy tt 2 = (true, None, []).
Proof. reflexivity. Qed.

Example attachments_only_refused :
  isRunningImageAllowed alicePolicy tt 4
  = (false,
     Some (PolicyRequirementError
             ("A signature was required, but no signature exists "
              +:+ "(1 non-sigstore signatures, 1 sigstore non-signature attachments)")),
     []).
Proof. reflexivity. Qed.

(** A path and inline data together; a path alone, readable and not. *)
Lemma loadBytesFromDataOrPath_contract_witness :
  "alice.pub" <> EmptyString
  /\ files "alice.pub" = Ok (Some (bytes_of_string "alice"))
  /\ files "carol.pub"
     = Err (errorString "open carol.pub: no such file or directory")
  /\ is_Err (loadBytesFromDataOrPath "rekorPublicKey"
               (Some (bytes_of_string "rekor")) "alice.pub")
  /\ loadBytesFromDataOrPath "rekorPublicKey" None "alice.pub"
     = Ok (Some (bytes_of_string "alice"))
  /\ loadBytesFromDataOrPath "rekorPublicKey" None "carol.pub"
     = Err (errorString "open carol.pub: no such file or directory").
Proof.
  destruct (loadBytesFromDataOrPath_contract "rekorPublicKey")
    as (Hboth & Hread & Hfail & _ & _).
  split; [done|]. split; [reflexivity|]. split; [reflexivity|].
  split; [eexists; by apply Hboth|].
  split; [by apply Hread | by apply Hfail].
Defined.

(** [pathAndDatasPolicy] has a key file, a list of key files and a list of
    inline keys. *)
Lemma prepareTrustRoot_key_sources_exclusive_witness :
  keyPaths pathAndDatasPolicy <> []
  /\ keyDatas pathAndDatasPolicy <> []
  /\ keyPaths pathAndDatasPolicy = ["alice.pub"]
  /\ prepareTrustRoot pathAndDatasPolicy
     = Err (errorString "Too many key sources are specified").
Proof.
  assert (Hpaths : keyPaths pathAndDatasPolicy <> []) by (by vm_compute).
  assert (Hdatas : keyDatas pathAndDatasPolicy <> []) by (by vm_compute).
  assert (Hpath : KeyPath pathAndDatasPolicy <> EmptyString) by discriminate.
  destruct (prepareTrustRoot_key_sources_exclusive pathAndDatasPolicy)
    as (Hsingular & _ & _ & _ & Hfail).
  split; [exact Hpaths|]. split; [exact Hdatas|].
  split; [exact (Hsingular Hpath) | exact (Hfail Hpaths Hdatas)].
Defined.

(** C1 fails on the code: the singular source is not merged with the
    plural one, it replaces it.  With [KeyPath] set, the entry of
    [KeyPaths] is in neither the path list nor the trust root; with
    [KeyData] set, the entry of [KeyDatas] is in neither the data list nor
    the trust root. *)
Lemma singular_key_source_replaces_plural :
  ("bob.pub" ∈ KeyPaths singularAndPluralPolicy
   /\ ("bob.pub" ∉ keyPaths singularAndPluralPolicy)
   /\ keyPaths singularAndPluralPolicy = ["alice.pub"]
   /\ prepareTrustRoot singularAndPluralPolicy = Ok aliceRoot)
  /\ (bytes_of_string "bob" ∈ KeyDatas singularAndPluralDataPolicy
      /\ (bytes_of_string "bob" ∉ keyDatas singularAndPluralDataPolicy)
      /\ keyDatas singularAndPluralDataPolicy = [bytes_of_string "alice"]
      /\ prepareTrustRoot singularAndPluralDataPolicy = Ok aliceRoot).
Proof.
  split.
  - split; [by apply list_elem_of_singleton|].
    split; [by intros [=]%list_elem_of_singleton|].
    split; reflexivity.
  - split; [by apply list_elem_of_singleton|].
    split; [by intros [=]%list_elem_of_singleton|].
    split; reflexivity.
Qed.

(** Under [loggedPolicy], the SET of [sigMallory] covers neither [alice]
    nor [bob], whose key cannot even be re-encoded: both are dropped. *)
Lemma rekor_check_filters_keys_witness :
  prepareTrustRoot loggedPolicy = Ok loggedRoot
  /\ directKeys loggedRoot
  /\ rekorPublicKey loggedRoot = Some "rekor"
  /\ UntrustedAnnotations sigMallory !! sigKey = Some "mallory"
  /\ UntrustedAnnotations sigMallory !! setKey = Some "mallory"
  /\ isSignatureAccepted loggedPolicy tt 0 sigMallory
     = reject (errorString "No public key verified against the RekorSET")
         [Errorf "%q" (errorString "SET does not cover this key");
          Errorf "re-marshaling public key to PEM: %q" (errorString "unsupported key type")].
Proof.
  assert (Hroot : prepareTrustRoot loggedPolicy = Ok loggedRoot) by reflexivity.
  assert (Hshape : directKeys loggedRoot) by (split; done).
  assert (Hrekor : rekorPublicKey loggedRoot = Some "rekor") by reflexivity.
  assert (Hsig : UntrustedAnnotations sigMallory !! sigKey = Some "mallory") by reflexivity.
  assert (Hset : UntrustedAnnotations sigMallory !! setKey = Some "mallory") by reflexivity.
  repeat (split; [assumption|]).
  destruct (rekor_check_filters_keys loggedPolicy tt 0 sigMallory loggedRoot
              "rekor" "mallory" "mallory" Hroot Hshape Hrekor Hsig Hset)
    as (_ & _ & Hnone & _).
  apply Hnone. repeat constructor.
Defined.

(** Image [2]: a non-sigstore signature, a non-signature attachment, a
    rejected signature, then the one by [alice]; the bare one after it
    plays no part. *)
Lemma first_accepted_signature_admits_witness :
  UntrustedSignatures 2 tt
  = Ok ([simpleSigning; SigstoreSig sbom; SigstoreSig sigMallory]
        ++ SigstoreSig sigAlice :: [SigstoreSig sigBare])
  /\ UntrustedMIMEType sigAlice = SigstoreSignatureMIMEType
  /\ verdict alicePolicy tt 2 sigAlice = sarAccepted
  /\ isRunningImageAllowed alicePolicy tt 2 = (true, None, []).
Proof.
  assert (Hsigs : UntrustedSignatures 2 tt
                  = Ok ([simpleSigning; SigstoreSig sbom; SigstoreSig sigMallory]
                        ++ SigstoreSig sigAlice :: [SigstoreSig sigBare])) by reflexivity.
  assert (Hmime : UntrustedMIMEType sigAlice = SigstoreSignatureMIMEType) by reflexivity.
  assert (Hnone : Forall (fun s' => accepted alicePolicy tt 2 s' = false)
                    (applicable [simpleSigning; SigstoreSig sbom; SigstoreSig sigMallory]))
    by (repeat constructor).
  assert (Hacc : verdict alicePolicy tt 2 sigAlice = sarAccepted) by reflexivity.
  split; [exact Hsigs|]. split; [exact Hmime|]. split; [exact Hacc|].
  destruct (first_accepted_signature_admits alicePolicy tt 2
              [simpleSigning; SigstoreSig sbom; SigstoreSig sigMallory]
              [SigstoreSig sigBare] sigAlice Hsigs Hmime Hnone Hacc) as [Hrun _].
  exact Hrun.
Defined.

(** [emptyPolicy] configures no trust mechanism at all. *)
Lemma inconsistent_trust_root_rejected_witness :
  prepareTrustRoot emptyPolicy = Ok emptyRoot
  /\ violatesInvariant emptyRoot
  /\ isSignatureAccepted emptyPolicy tt 0 sigAlice
     = reject (errorString
         "Internal inconsistency: Neither a public key nor a Fulcio CA specified") [].
Proof.
  assert (Hroot : prepareTrustRoot emptyPolicy = Ok emptyRoot) by reflexivity.
  assert (Hnone : noMechanism emptyRoot) by (split; reflexivity).
  assert (Hviol : violatesInvariant emptyRoot) by (right; left; exact Hnone).
  assert (Hsig : UntrustedAnnotations sigAlice !! sigKey = Some "alice") by reflexivity.
  split; [exact Hroot|]. split; [exact Hviol|].
  destruct (inconsistent_trust_root_rejected emptyPolicy tt 0 sigAlice emptyRoot
              Hroot Hviol) as (Hpresent & _ & _).
  destruct (Hpresent "alice" Hsig) as (e & Hrun & _ & _ & He & _).
  rewrite Hrun. by rewrite (He Hnone).
Defined.

(** Under [fulcioPolicy], [sigAliceLogged] lacks the certificate. *)
Lemma missing_mandatory_annotation_rejected_witness :
  prepareTrustRoot fulcioPolicy = Ok fulcioRoot
  /\ mandatory fulcioRoot certKey
  /\ UntrustedAnnotations sigAliceLogged !! certKey = None
  /\ exists key',
       mandatory fulcioRoot key'
       /\ UntrustedAnnotations sigAliceLogged !! key' = None
       /\ (UntrustedAnnotations sigAliceLogged !! SigstoreSignatureAnnotationKey = None ->
           key' = SigstoreSignatureAnnotationKey)
       /\ isSignatureAccepted fulcioPolicy tt 0 sigAliceLogged
          = ({| sar_result := sarRejected; sar_key := None |},
             Some (errorString ("missing " +:+ key' +:+ " annotation")), []).
Proof.
  assert (Hmand : mandatory fulcioRoot certKey).
  { right; right. split; [reflexivity|]. split; [reflexivity|]. split; discriminate. }
  assert (Hroot : prepareTrustRoot fulcioPolicy = Ok fulcioRoot) by reflexivity.
  assert (Hmiss : UntrustedAnnotations sigAliceLogged !! certKey = None) by reflexivity.
  split; [exact Hroot|]. split; [exact Hmand|]. split; [exact Hmiss|].
  exact (missing_mandatory_annotation_rejected fulcioPolicy tt 0 sigAliceLogged fulcioRoot
           certKey Hroot Hmand Hmiss).
Defined.

(** C7 fails on the code: under [bothPolicy] a Rekor key is configured and
    [sigAlice] has no SET annotation, yet the rejection is the internal
    inconsistency of the trust root, not a missing annotation; and under
    [twoSourcesPolicy], whose trust root cannot be prepared, a signature
    without any annotation is rejected with the preparation error. *)
Lemma missing_annotation_not_reported :
  (prepareTrustRoot bothPolicy = Ok bothRoot
   /\ rekorPublicKey bothRoot = Some "rekor"
   /\ UntrustedMIMEType sigAlice = SigstoreSignatureMIMEType
   /\ UntrustedAnnotations sigAlice !! SigstoreSETAnnotationKey = None
   /\ isSignatureAccepted bothPolicy tt 0 sigAlice
      = reject (errorString
          "Internal inconsistency: Both a public key and Fulcio CA specified") []
   /\ ~ (exists key log,
           isSignatureAccepted bothPolicy tt 0 sigAlice
           = reject (missingAnnotation key) log))
  /\ (UntrustedMIMEType sigBare = SigstoreSignatureMIMEType
      /\ UntrustedAnnotations sigBare !! SigstoreSignatureAnnotationKey = None
      /\ isSignatureAccepted twoSourcesPolicy tt 0 sigBare
         = reject (errorString "Too many key sources are specified") []
      /\ ~ (exists key log,
              isSignatureAccepted twoSourcesPolicy tt 0 sigBare
              = reject (missingAnnotation key) log)).
Proof.
  split.
  - split; [reflexivity|]. split; [reflexivity|]. split; [reflexivity|].
    split; [reflexivity|]. split; [reflexivity|].
    intros (key & log & Hrun). vm_compute in Hrun. discriminate Hrun.
  - split; [reflexivity|]. split; [reflexivity|]. split; [reflexivity|].
    intros (key & log & Hrun). vm_compute in Hrun. discriminate Hrun.
Qed.

(** Image [1] under [alicePolicy]: two signatures, both rejected. *)
Lemma rejection_summary_witness :
  UntrustedSignatures 1 tt = Ok (signaturesOf 1)
  /\ Forall (fun s => accepted alicePolicy tt 1 s = false) (applicable (signaturesOf 1))
  /\ multierr_Format_joins
  /\ (isRunningImageAllowed alicePolicy tt 1).1
     = (false,
        Some (PolicyRequirementError
                ("None of the signatures were accepted, reasons: "
                 +:+ "cryptographic signature verification failed; "
                 +:+ "missing dev.cosignproject.cosign/signature annotation"))).
Proof.
  assert (Hsigs : UntrustedSignatures 1 tt = Ok (signaturesOf 1)) by reflexivity.
  assert (Hnone : Forall (fun s => accepted alicePolicy tt 1 s = false)
                    (applicable (signaturesOf 1))) by (repeat constructor).
  split; [exact Hsigs|]. split; [exact Hnone|]. split; [exact fixture_format_joins|].
  destruct (rejection_summary alicePolicy tt 1 (signaturesOf 1) Hsigs Hnone)
    as (reasons & err & Hreasons & Hrun & _ & _ & _ & Hmany).
  assert (Hr : reasons
               = [errorString "cryptographic signature verification failed";
                  errorString "missing dev.cosignproject.cosign/signature annotation"]).
  { apply (inj (fmap Some)). rewrite <- Hreasons. reflexivity. }
  subst reasons. rewrite Hrun.
  destruct Hmany as [_ Hjoin]; [simpl; lia|].
  rewrite (Hjoin fixture_format_joins). reflexivity.
Defined.

(** Image [3] under [twoSourcesPolicy]: one signature, rejected with the
    preparation error. *)
Lemma trust_root_error_is_recorded_per_signature_witness :
  prepareTrustRoot twoSourcesPolicy
  = Err (errorString "Too many key sources are specified")
  /\ UntrustedSignatures 3 tt = Ok (signaturesOf 3)
  /\ isRunningImageAllowed twoSourcesPolicy tt 3
     = (false, Some (errorString "Too many key sources are specified"), []).
Proof.
  assert (Hroot : prepareTrustRoot twoSourcesPolicy
                  = Err (errorString "Too many key sources are specified")) by reflexivity.
  assert (Hsigs : UntrustedSignatures 3 tt = Ok (signaturesOf 3)) by reflexivity.
  split; [exact Hroot|]. split; [exact Hsigs|].
  destruct (trust_root_error_is_recorded_per_signature twoSourcesPolicy tt 3
              (signaturesOf 3) (errorString "Too many key sources are specified")
              Hroot Hsigs) as (_ & _ & Hone).
  apply Hone. reflexivity.
Defined.

(** C2 fails on the code: under [twoSourcesPolicy] the preparation error is
    recorded once for each of the two signatures of image [1], and the
    image is refused with the combined message, not with the preparation
    error; on image [0], which has no signature, the preparation error does
    not surface at all. *)
Lemma trust_root_error_does_not_abort :
  prepareTrustRoot twoSourcesPolicy
  = Err (errorString "Too many key sources are specified")
  /\ isRunningImageAllowed twoSourcesPolicy tt 1
     = (false,
        Some (PolicyRequirementError
                ("None of the signatures were accepted, reasons: "
                 +:+ "Too many key sources are specified; "
                 +:+ "Too many key sources are specified")),
        [])
  /\ (isRunningImageAllowed twoSourcesPolicy tt 1).1
     <> (false, Some (errorString "Too many key sources are specified"))
  /\ isRunningImageAllowed twoSourcesPolicy tt 0
     = (false,
        Some (PolicyRequirementError "A signature was required, but no signature exists"),
        []).
Proof.
  split; [reflexivity|]. split; [reflexivity|]. split; [|reflexivity].
  vm_compute. discriminate.
Qed.

(** C6 fails on the code: [emptyRoot] has no trust mechanism, yet a
    signature without the signature annotation is turned down for the
    missing annotation, which is not an internal-inconsistency error. *)
Lemma inconsistent_trust_root_missing_annotation :
  prepareTrustRoot emptyPolicy = Ok emptyRoot
  /\ violatesInvariant emptyRoot
  /\ isSignatureAccepted emptyPolicy tt 0 sigBare
     = reject (errorString "missing dev.cosignproject.cosign/signature annotation") []
  /\ ~ (exists e log,
          isSignatureAccepted emptyPolicy tt 0 sigBare = reject e log
          /\ internalInconsistency e = true).
Proof.
  split; [reflexivity|]. split; [right; left; split; reflexivity|].
  split; [reflexivity|].
  intros (e & log & Hrun & Hint).
  injection Hrun as <- <-. discriminate Hint.
Qed.

(** ** The further properties on the concrete instance *)

Lemma fulcio_prepareTrustRoot_success_witness :
  fulcio_prepareTrustRoot fulcioConfig = Ok fulcioDescriptor
  /\ oidcIssuer fulcioDescriptor = "https://issuer.example"
  /\ subjectEmail fulcioDescriptor = "alice@example.com".
Proof.
  assert (Hrun : fulcio_prepareTrustRoot fulcioConfig = Ok fulcioDescriptor) by reflexivity.
  split; [exact Hrun|].
  destruct (fulcio_prepareTrustRoot_success fulcioConfig fulcioDescriptor Hrun)
    as (Hissuer & Hsubject & _).
  split; [exact Hissuer | exact Hsubject].
Defined.

Lemma fulcio_prepareTrustRoot_failures_witness :
  CAData (withoutCA fulcioConfig) = None
  /\ CAPath (withoutCA fulcioConfig) = EmptyString
  /\ is_Err (fulcio_prepareTrustRoot (withoutCA fulcioConfig)).
Proof.
  split; [reflexivity|]. split; [reflexivity|].
  destruct (fulcio_prepareTrustRoot_failures (withoutCA fulcioConfig)) as (_ & Hneither & _).
  eexists. apply Hneither; reflexivity.
Defined.

Lemma prepareTrustRoot_keys_witness :
  prepareTrustRoot loggedPolicy = Ok loggedRoot
  /\ exists fromPaths fromDatas,
       publicKeys loggedRoot = omap id fromPaths ++ fromDatas
       /\ Forall2 pathYields (keyPaths loggedPolicy) fromPaths
       /\ Forall2 (fun d k => UnmarshalPEMToPublicKey d = Ok k)
            (keyDatas loggedPolicy) fromDatas
       /\ (keyPaths loggedPolicy = [] \/ keyDatas loggedPolicy = []).
Proof.
  assert (Hroot : prepareTrustRoot loggedPolicy = Ok loggedRoot) by reflexivity.
  split; [exact Hroot|]. exact (prepareTrustRoot_keys loggedPolicy loggedRoot Hroot).
Defined.

Lemma prepareTrustRoot_unparsable_key_data_witness :
  keyPaths badDataPolicy = []
  /\ keyDatas badDataPolicy = [bytes_of_string "alice"] ++ [] :: []
  /\ UnmarshalPEMToPublicKey [] = Err (errorString "PEM decoding failed")
  /\ prepareTrustRoot badDataPolicy
     = Err (wrapError "parsing public key: " (errorString "PEM decoding failed")).
Proof.
  assert (Hpaths : keyPaths badDataPolicy = []) by reflexivity.
  assert (Hdatas : keyDatas badDataPolicy = [bytes_of_string "alice"] ++ [] :: [])
    by reflexivity.
  assert (Hbad : UnmarshalPEMToPublicKey [] = Err (errorString "PEM decoding failed"))
    by reflexivity.
  assert (Hpre : Forall (fun d' => exists k, UnmarshalPEMToPublicKey d' = Ok k)
                   [bytes_of_string "alice"]).
  { constructor; [by exists "alice" | constructor]. }
  split; [exact Hpaths|]. split; [exact Hdatas|]. split; [exact Hbad|].
  destruct (prepareTrustRoot_unparsable_key_data badDataPolicy) as [_ Hfirst].
  exact (proj1 (Hfirst _ _ _ _ Hpaths Hdatas Hpre Hbad)).
Defined.

Lemma prepareTrustRoot_bad_key_file_witness :
  keyDatas missingFilePolicy = []
  /\ keyPaths missingFilePolicy = ["alice.pub"] ++ "carol.pub" :: []
  /\ os_ReadFile "carol.pub"
     = Err (errorString "open carol.pub: no such file or directory")
  /\ prepareTrustRoot missingFilePolicy
     = Err (errorString "open carol.pub: no such file or directory").
Proof.
  assert (Hdatas : keyDatas missingFilePolicy = []) by reflexivity.
  assert (Hpaths : keyPaths missingFilePolicy = ["alice.pub"] ++ "carol.pub" :: [])
    by reflexivity.
  assert (Hread : os_ReadFile "carol.pub"
                  = Err (errorString "open carol.pub: no such file or directory"))
    by reflexivity.
  assert (Hpre : Forall (fun p' => exists y, pathYields p' y) ["alice.pub"]).
  { constructor; [|constructor]. exists (Some "alice"), (bytes_of_string "alice"). done. }
  split; [exact Hdatas|]. split; [exact Hpaths|]. split; [exact Hread|].
  destruct (prepareTrustRoot_bad_key_file missingFilePolicy) as [_ Hfirst].
  exact (proj1 (Hfirst _ _ _ Hdatas Hpaths Hpre) _ Hread).
Defined.

Lemma prepareTrustRoot_mirrors_configuration_witness :
  prepareTrustRoot fulcioPolicy = Ok fulcioRoot
  /\ (fulcio fulcioRoot = None <-> Fulcio fulcioPolicy = None).
Proof.
  assert (Hroot : prepareTrustRoot fulcioPolicy = Ok fulcioRoot) by reflexivity.
  split; [exact Hroot|].
  exact (proj1 (prepareTrustRoot_mirrors_configuration fulcioPolicy fulcioRoot Hroot)).
Defined.

Lemma prepareTrustRoot_bad_rekor_or_fulcio_witness :
  RekorPublicKeyData doubleRekorPolicy = Some (bytes_of_string "rekor")
  /\ RekorPublicKeyPath doubleRekorPolicy <> EmptyString
  /\ is_Err (prepareTrustRoot doubleRekorPolicy).
Proof.
  assert (Hdata : RekorPublicKeyData doubleRekorPolicy = Some (bytes_of_string "rekor"))
    by reflexivity.
  assert (Hpath : RekorPublicKeyPath doubleRekorPolicy <> EmptyString) by discriminate.
  split; [exact Hdata|]. split; [exact Hpath|].
  exact (proj1 (prepareTrustRoot_bad_rekor_or_fulcio doubleRekorPolicy) _ Hdata Hpath).
Defined.

Lemma prepareTrustRoot_singular_takes_precedence_witness :
  KeyPath alicePolicy <> EmptyString
  /\ prepareTrustRoot (withKeyPaths alicePolicy ["bob.pub"; "carol.pub"])
     = prepareTrustRoot alicePolicy.
Proof.
  assert (Hpath : KeyPath alicePolicy <> EmptyString) by discriminate.
  split; [exact Hpath|].
  exact (proj1 (prepareTrustRoot_singular_takes_precedence alicePolicy) Hpath _).
Defined.

Lemma acceptance_is_sound_witness :
  sar_result (isSignatureAccepted alicePolicy tt 0 sigAlice).1.1 = sarAccepted
  /\ exists tr b64 keys claims,
       prepareTrustRoot alicePolicy = Ok tr
       /\ UntrustedAnnotations sigAlice !! SigstoreSignatureAnnotationKey = Some b64
       /\ candidateKeys tr sigAlice b64 keys
       /\ keys <> []
       /\ VerifySigstorePayload keys (UntrustedPayload sigAlice) b64
            (acceptanceRules alicePolicy tt 0)
          = (Some claims, sar_key (isSignatureAccepted alicePolicy tt 0 sigAlice).1.1, None).
Proof.
  assert (Hacc : sar_result (isSignatureAccepted alicePolicy tt 0 sigAlice).1.1 = sarAccepted)
    by reflexivity.
  split; [exact Hacc|]. exact (acceptance_is_sound alicePolicy tt 0 sigAlice Hacc).
Defined.

Lemma payload_verifier_decides_witness :
  prepareTrustRoot alicePolicy = Ok aliceRoot
  /\ UntrustedAnnotations sigAlice !! sigKey = Some "alice"
  /\ candidateKeys aliceRoot sigAlice "alice" ["alice"]
  /\ (isSignatureAccepted alicePolicy tt 0 sigAlice).1
     = ({| sar_result := sarAccepted; sar_key := Some "alice" |}, None).
Proof.
  assert (Hroot : prepareTrustRoot alicePolicy = Ok aliceRoot) by reflexivity.
  assert (Hsig : UntrustedAnnotations sigAlice !! sigKey = Some "alice") by reflexivity.
  assert (Hcand : candidateKeys aliceRoot sigAlice "alice" ["alice"]).
  { left. split; [split; [discriminate | reflexivity]|]. split; reflexivity. }
  assert (Hne : ["alice"] <> ([] : list string)) by discriminate.
  split; [exact Hroot|]. split; [exact Hsig|]. split; [exact Hcand|].
  destruct (payload_verifier_decides alicePolicy tt 0 sigAlice aliceRoot "alice" ["alice"]
              Hroot Hsig Hcand Hne) as (_ & _ & Hok).
  apply (Hok "example.com/image"). reflexivity.
Defined.

Lemma direct_keys_ignore_other_annotations_witness :
  prepareTrustRoot alicePolicy = Ok aliceRoot
  /\ directKeys aliceRoot
  /\ rekorPublicKey aliceRoot = None
  /\ UntrustedPayload sigAlice = UntrustedPayload sigWrongCert
  /\ isSignatureAccepted alicePolicy tt 0 sigAlice
     = isSignatureAccepted alicePolicy tt 0 sigWrongCert.
Proof.
  assert (Hroot : prepareTrustRoot alicePolicy = Ok aliceRoot) by reflexivity.
  assert (Hshape : directKeys aliceRoot) by (split; [discriminate | reflexivity]).
  assert (Hrekor : rekorPublicKey aliceRoot = None) by reflexivity.
  assert (Hpayload : UntrustedPayload sigAlice = UntrustedPayload sigWrongCert)
    by reflexivity.
  assert (Hsig : UntrustedAnnotations sigAlice !! SigstoreSignatureAnnotationKey
                 = UntrustedAnnotations sigWrongCert !! SigstoreSignatureAnnotationKey)
    by reflexivity.
  split; [exact Hroot|]. split; [exact Hshape|]. split; [exact Hrekor|].
  split; [exact Hpayload|].
  exact (proj1 (direct_keys_ignore_other_annotations alicePolicy tt 0 sigAlice sigWrongCert
                  aliceRoot Hroot Hshape Hrekor Hpayload Hsig)).
Defined.

Lemma fulcio_failure_is_terminal_witness :
  prepareTrustRoot fulcioPolicy = Ok fulcioRoot
  /\ verifyRekorFulcio "rekor" fulcioDescriptor (bytes_of_string "alice")
       (bytes_of_string "eve") None "alice" (UntrustedPayload sigWrongCert)
     = Err (errorString "SET does not cover this certificate")
  /\ isSignatureAccepted fulcioPolicy tt 0 sigWrongCert
     = reject (errorString "SET does not cover this certificate") [].
Proof.
  assert (Hroot : prepareTrustRoot fulcioPolicy = Ok fulcioRoot) by reflexivity.
  assert (Hkeys : publicKeys fulcioRoot = []) by reflexivity.
  assert (Hfulcio : fulcio fulcioRoot = Some fulcioDescriptor) by reflexivity.
  assert (Hrekor : rekorPublicKey fulcioRoot = Some "rekor") by reflexivity.
  assert (Hsig : UntrustedAnnotations sigWrongCert !! SigstoreSignatureAnnotationKey
                 = Some "alice") by reflexivity.
  assert (Hset : UntrustedAnnotations sigWrongCert !! SigstoreSETAnnotationKey
                 = Some "alice") by reflexivity.
  assert (Hcert : UntrustedAnnotations sigWrongCert !! SigstoreCertificateAnnotationKey
                  = Some "eve") by reflexivity.
  assert (Hrf : verifyRekorFulcio "rekor" fulcioDescriptor (bytes_of_string "alice")
                  (bytes_of_string "eve")
                  (bytes_of_string <$> UntrustedAnnotations sigWrongCert
                     !! SigstoreIntermediateCertificateChainAnnotationKey)
                  "alice" (UntrustedPayload sigWrongCert)
                = Err (errorString "SET does not cover this certificate")) by reflexivity.
  split; [exact Hroot|]. split; [exact Hrf|].
  exact (fulcio_failure_is_terminal fulcioPolicy tt 0 sigWrongCert fulcioRoot "rekor"
           fulcioDescriptor "alice" "alice" "eve" _
           Hroot Hkeys Hfulcio Hrekor Hsig Hset Hcert Hrf).
Defined.

Lemma log_comes_from_rekor_filter_witness :
  (isSignatureAccepted loggedPolicy tt 0 sigAliceLogged).2 <> []
  /\ length (isSignatureAccepted loggedPolicy tt 0 sigAliceLogged).2
     <= length (publicKeys loggedRoot).
Proof.
  assert (Hlog : (isSignatureAccepted loggedPolicy tt 0 sigAliceLogged).2 <> [])
    by discriminate.
  split; [exact Hlog|].
  destruct (log_comes_from_rekor_filter loggedPolicy tt 0 sigAliceLogged Hlog)
    as (tr & rekor & b64 & set & Hroot & _ & _ & _ & _ & _ & Hle).
  change (Ok loggedRoot = Ok tr) in Hroot. injection Hroot as <-. exact Hle.
Defined.

Lemma admitted_iff_some_signature_accepted_witness :
  UntrustedSignatures 2 tt = Ok (signaturesOf 2)
  /\ (isRunningImageAllowed alicePolicy tt 2).1.1 = true
  /\ exists s, s ∈ signaturesOf 2 /\ acceptedSignature alicePolicy tt 2 s.
Proof.
  assert (Hsigs : UntrustedSignatures 2 tt = Ok (signaturesOf 2)) by reflexivity.
  assert (Hrun : (isRunningImageAllowed alicePolicy tt 2).1.1 = true) by reflexivity.
  split; [exact Hsigs|]. split; [exact Hrun|].
  destruct (admitted_iff_some_signature_accepted alicePolicy tt 2 (signaturesOf 2) Hsigs)
    as [[Hfwd _] _].
  exact (Hfwd Hrun).
Defined.

Lemma admission_is_monotone_witness :
  admits alicePolicy tt 2 [SigstoreSig sigAlice] = true
  /\ admits alicePolicy tt 2 (signaturesOf 2) = true.
Proof.
  assert (Hone : admits alicePolicy tt 2 [SigstoreSig sigAlice] = true) by reflexivity.
  split; [exact Hone|].
  refine (proj1 (admission_is_monotone alicePolicy tt 2 [SigstoreSig sigAlice]
                   (signaturesOf 2)) _ Hone).
  intros s ->%list_elem_of_singleton. unfold signaturesOf. set_solver.
Defined.

Lemma admission_requires_consistent_trust_root_witness :
  (isRunningImageAllowed alicePolicy tt 2).1.1 = true
  /\ exists tr, prepareTrustRoot alicePolicy = Ok tr
                /\ (directKeys tr \/ certificateAuthority tr).
Proof.
  assert (Hrun : (isRunningImageAllowed alicePolicy tt 2).1.1 = true) by reflexivity.
  split; [exact Hrun|].
  exact (proj1 (admission_requires_consistent_trust_root alicePolicy tt 2 Hrun)).
Defined.
